(** * Umami MCP server: date normalisation, session collection, tool handlers

    A shallow embedding of [analytics_service/utils.py] and
    [analytics_service/server.py], and the properties of the date
    normaliser ([convert_date_to_unix]), of the session collector
    ([_get_session_ids]) and of the tool handlers.

    Conventions of the embedding.
    - Python values that travel through the code (the decoded JSON of the
      remote API) are the type [value]: None, integers, strings, lists and
      dicts.  JSON booleans and non-integer numbers are left out.
    - A Python [str] is a [string] whose characters are read as code points
      below 256.
    - A computation that may raise is a [res]; one that also talks to the
      remote API and to the logger is an [M], a state monad over the
      [world] of recorded calls and log lines.  The unbounded loop of the
      collector takes fuel; [None] is "still running when the fuel ran out".
    - What the Python runtime supplies and the sources do not define (the
      local time zone, [repr], [json.dumps]) is the class [Runtime]; the
      remote API client ([analytics_service/api.py]) is the class
      [UmamiClient]. *)

From Stdlib Require Import ZArith String Ascii.
From Stdlib Require Import Floats.SpecFloat.
From stdpp Require Import base option list strings pretty gmap sets.

Set Warnings "-register-all,-clear-no-such-hyp".
Open Scope Z_scope.

(** ** Python values and exceptions *)

Inductive value : Type :=
| VNone
| VInt (z : Z)
| VStr (s : string)
| VList (l : list value)
| VDict (d : list (string * value)).

(** Exceptions, all of them subclasses of [Exception].  [OtherError] stands
    for any class outside the hierarchies of the first four (a transport or
    authentication fault of the client, for instance). *)
Inductive exn : Type :=
| ValueError (msg : string)
| KeyError (key : string)
| TypeError (msg : string)
| OverflowError (msg : string)
| OtherError (cls msg : string).

Inductive res (A : Type) : Type :=
| Ok (a : A)
| Raise (e : exn).
Arguments Ok {A} a.
Arguments Raise {A} e.

#[global] Instance res_ret : MRet res := fun A a => Ok a.
#[global] Instance res_bind : MBind res := fun A B f m =>
  match m with
  | Ok a => f a
  | Raise e => Raise e
  end.

(** A naive local date and time, as [datetime.datetime] holds it. *)
Record datetime : Type := mk_datetime {
  year : Z; month : Z; day : Z;
  hour : Z; minute : Z; second : Z; microsecond : Z
}.

(** What the interpreter and its libraries supply:
    - [local_to_seconds]: seconds since the epoch of a naive local date and
      time (its microsecond is not read), by the rules of the process's time
      zone; it may raise;
    - [py_repr]: [repr] of a [str];
    - [json_dumps]: [json.dumps(_, indent=2)]. *)
Class Runtime : Type := {
  local_to_seconds : datetime -> res Z;
  py_repr : string -> string;
  json_dumps : value -> res string
}.

(** [str(e)] *)
Definition str_exn `{Runtime} (e : exn) : string :=
  match e with
  | ValueError msg => msg
  | KeyError key => py_repr key
  | TypeError msg => msg
  | OverflowError msg => msg
  | OtherError _ msg => msg
  end.

Definition type_name (v : value) : string :=
  match v with
  | VNone => "NoneType"
  | VInt _ => "int"
  | VStr _ => "str"
  | VList _ => "list"
  | VDict _ => "dict"
  end.

(** [bool(v)]: None, 0, the empty string, list and dict are false. *)
Definition truthy (v : value) : bool :=
  match v with
  | VNone => false
  | VInt z => negb (z =? 0)
  | VStr s => negb (String.eqb s EmptyString)
  | VList l => match l with [] => false | _ => true end
  | VDict d => match d with [] => false | _ => true end
  end.

(** A dict keeps its items in insertion order; its keys are distinct, and a
    lookup returns the binding of the key. *)
Fixpoint dict_get (d : list (string * value)) (k : string) : option value :=
  match d with
  | [] => None
  | (k', v) :: d' => if String.eqb k' k then Some v else dict_get d' k
  end.

(** [v[key]] for a string key. *)
Definition getitem (v : value) (key : string) : res value :=
  match v with
  | VDict d =>
      match dict_get d key with
      | Some x => Ok x
      | None => Raise (KeyError key)
      end
  | VList _ => Raise (TypeError "list indices must be integers or slices, not str")
  | VStr _ => Raise (TypeError "string indices must be integers, not 'str'")
  | VInt _ => Raise (TypeError "'int' object is not subscriptable")
  | VNone => Raise (TypeError "'NoneType' object is not subscriptable")
  end.

Fixpoint str_chars (s : string) : list value :=
  match s with
  | EmptyString => []
  | String c s' => VStr (String c EmptyString) :: str_chars s'
  end.

(** [for x in v]: the elements of a list, the keys of a dict, the
    characters of a string. *)
Definition py_iter (v : value) : res (list value) :=
  match v with
  | VList l => Ok l
  | VDict d => Ok (map (fun kv => VStr (fst kv)) d)
  | VStr s => Ok (str_chars s)
  | VInt _ => Raise (TypeError "'int' object is not iterable")
  | VNone => Raise (TypeError "'NoneType' object is not iterable")
  end.

(** The values a [set] can hold. *)
Inductive hashable : Type :=
| HNone
| HInt (z : Z)
| HStr (s : string).

#[global] Instance hashable_eq_dec : EqDecision hashable.
Proof. solve_decision. Defined.

#[global] Instance hashable_countable : Countable hashable.
Proof.
  refine (inj_countable'
    (fun h => match h with
              | HNone => inl ()
              | HInt z => inr (inl z)
              | HStr s => inr (inr s)
              end)
    (fun x => match x with
              | inl _ => HNone
              | inr (inl z) => HInt z
              | inr (inr s) => HStr s
              end) _).
  intros []; reflexivity.
Defined.

Definition to_hashable (v : value) : res hashable :=
  match v with
  | VNone => Ok HNone
  | VInt z => Ok (HInt z)
  | VStr s => Ok (HStr s)
  | VList _ => Raise (TypeError "unhashable type: 'list'")
  | VDict _ => Raise (TypeError "unhashable type: 'dict'")
  end.

Definition of_hashable (h : hashable) : value :=
  match h with
  | HNone => VNone
  | HInt z => VInt z
  | HStr s => VStr s
  end.

(** [a == b] *)
Fixpoint py_eqb (a b : value) {struct a} : bool :=
  match a, b with
  | VNone, VNone => true
  | VInt x, VInt y => x =? y
  | VStr x, VStr y => String.eqb x y
  | VList xs, VList ys =>
      (fix all2 (xs ys : list value) {struct xs} : bool :=
         match xs, ys with
         | [], [] => true
         | x :: xs', y :: ys' => py_eqb x y && all2 xs' ys'
         | _, _ => false
         end) xs ys
  | VDict xs, VDict ys =>
      (length xs =? length ys)%nat &&
      (fix sub (xs : list (string * value)) {struct xs} : bool :=
         match xs with
         | [] => true
         | (k, v) :: xs' =>
             match dict_get ys k with
             | Some w => py_eqb v w
             | None => false
             end && sub xs'
         end) xs
  | _, _ => false
  end.

Definition not_supported (op : string) (a b : value) : exn :=
  TypeError ("'" +:+ op +:+ "' not supported between instances of '"
             +:+ type_name a +:+ "' and '" +:+ type_name b +:+ "'").

(** [a >= b]: integers by value, strings by code points, lists by their
    first pair of unequal elements and then by length. *)
Fixpoint py_ge (a b : value) {struct a} : res bool :=
  match a, b with
  | VInt x, VInt y => Ok (y <=? x)
  | VStr x, VStr y => Ok (String.leb y x)
  | VList xs, VList ys =>
      (fix lex (xs ys : list value) {struct xs} : res bool :=
         match xs, ys with
         | [], [] => Ok true
         | [], _ :: _ => Ok false
         | _ :: _, [] => Ok true
         | x :: xs', y :: ys' => if py_eqb x y then lex xs' ys' else py_ge x y
         end) xs ys
  | _, _ => Raise (not_supported ">=" a b)
  end.

Fixpoint str_repeat (n : nat) (s : string) : string :=
  match n with
  | O => EmptyString
  | S n' => s +:+ str_repeat n' s
  end.

(** [n * v] for an integer [n]: a product, or a repeated sequence. *)
Definition py_mul (n : Z) (v : value) : res value :=
  match v with
  | VInt z => Ok (VInt (n * z))
  | VStr s => Ok (VStr (str_repeat (Z.to_nat n) s))
  | VList l => Ok (VList (mjoin (replicate (Z.to_nat n) l)))
  | VNone | VDict _ =>
      Raise (TypeError ("unsupported operand type(s) for *: 'int' and '"
                        +:+ type_name v +:+ "'"))
  end.

(** ** The remote API and the effects of a handler *)

(** One request to the remote API: the operation of the client and the
    arguments it is called with. *)
Inductive api_call : Type :=
| GetWebsites
| GetEventsWhere (website_id : string) (start_at end_at : Z)
    (unit timezone : string) (query : option string) (page page_size : Z)
| GetUserActivity (website_id session_id : string) (start_at end_at : Z)
| GetWebsiteStats (website_id : string) (start_at end_at : Z)
| GetWebsiteMetrics (website_id : string) (start_at end_at : Z) (type : string)
| GetPageviewSeries (website_id : string) (start_at end_at : Z)
    (unit timezone : string)
| GetActive (website_id : string).

(** The client of [analytics_service/api.py]: what a request returns or
    raises.  Within one invocation of a handler no request is issued twice
    (the collector asks for a new page each time), so a function of the
    request covers every sequence of responses. *)
Class UmamiClient : Type := {
  respond : api_call -> res value
}.

Record world : Type := mk_world {
  calls : list api_call;
  logged : list string
}.

Definition M (A : Type) : Type := world -> option (res A) * world.

#[global] Instance M_ret : MRet M := fun A a w => (Some (Ok a), w).
#[global] Instance M_bind : MBind M := fun A B f m w =>
  match m w with
  | (Some (Ok a), w') => f a w'
  | (Some (Raise e), w') => (Some (Raise e), w')
  | (None, w') => (None, w')
  end.

Definition lift {A : Type} (r : res A) : M A := fun w => (Some r, w).

Definition out_of_fuel {A : Type} : M A := fun w => (None, w).

(** [client.<operation>(...)]: the request is recorded, then answered. *)
Definition call `{UmamiClient} (c : api_call) : M value := fun w =>
  (Some (respond c), mk_world (calls w ++ [c]) (logged w)).

(** [logger.error(msg)] *)
Definition log_error (msg : string) : M unit := fun w =>
  (Some (Ok tt), mk_world (calls w) (logged w ++ [msg])).

(** [try: body except Exception as e: handler(e)] *)
Definition try_except {A : Type} (body : M A) (handler : exn -> M A) : M A :=
  fun w =>
    match body w with
    | (Some (Raise e), w') => handler e w'
    | r => r
    end.

(** ** The session collector ([server.py], [_get_session_ids]) *)

(** [{event["sessionId"] for event in events}] *)
Fixpoint session_id_set (events : list value) (acc : gset hashable)
  : res (gset hashable) :=
  match events with
  | [] => Ok acc
  | event :: rest =>
      v ← getitem event "sessionId";
      h ← to_hashable v;
      session_id_set rest (acc ∪ {[h]})
  end.

(** [db = list({event["sessionId"] for event in events_where["data"]})].
    The order of a set is not specified by Python; the model lists it in the
    order of [elements]. *)
Definition page_session_ids (events_where : value) : res (list hashable) :=
  data ← getitem events_where "data";
  events ← py_iter data;
  s ← session_id_set events ∅;
  Ok (elements s).

(** [200 * events_where["page"] >= events_where["count"]] *)
Definition page_is_last (events_where : value) : res bool :=
  p ← getitem events_where "page";
  lhs ← py_mul 200 p;
  c ← getitem events_where "count";
  py_ge lhs c.

(** [list(set(ids))] *)
Definition unique (ids : list hashable) : list hashable :=
  elements (list_to_set ids : gset hashable).

(** The [while True] loop, from the page counter [page] and the list [ids]
    collected so far.  Past the [break] on a falsy answer the second test
    [if events_where] always holds, so its block is the straight path. *)
Fixpoint _get_session_ids_loop `{UmamiClient} (fuel : nat)
    (website_id : string) (event_name : option string) (start_at end_at : Z)
    (page : Z) (ids : list hashable) : M (list hashable) :=
  match fuel with
  | O => out_of_fuel
  | S fuel' =>
      events_where ← call (GetEventsWhere website_id start_at end_at
                             "day" "UTC" event_name page 200);
      if negb (truthy events_where) then mret (unique ids)
      else
        db ← lift (page_session_ids events_where);
        let ids := ids ++ db in
        last ← lift (page_is_last events_where);
        if (last : bool) then mret (unique ids)
        else _get_session_ids_loop fuel' website_id event_name start_at end_at
               (page + 1) ids
  end.

Definition _get_session_ids `{UmamiClient} (fuel : nat)
    (website_id : string) (event_name : option string) (start_at end_at : Z)
  : M (list hashable) :=
  _get_session_ids_loop fuel website_id event_name start_at end_at 1 [].

(** ** [datetime.strptime] for the two formats of [utils.py] *)

Inductive format : Type :=
| FmtDateTime   (* "%Y-%m-%d %H:%M:%S" *)
| FmtDate.      (* "%Y-%m-%d" *)

Definition format_string (f : format) : string :=
  match f with
  | FmtDateTime => "%Y-%m-%d %H:%M:%S"
  | FmtDate => "%Y-%m-%d"
  end.

Definition code (c : ascii) : Z := Z.of_N (N_of_ascii c).

Definition between (lo hi : ascii) (c : ascii) : bool :=
  (code lo <=? code c) && (code c <=? code hi).

Definition is_digit : ascii -> bool := between "0" "9".

Definition digit (c : ascii) : Z := code c - 48.

(** The characters [\s] matches: tab to carriage return, the four
    separators 28 to 31, the space, and NEL and the no-break space. *)
Definition is_space (c : ascii) : bool :=
  let n := code c in
  ((9 <=? n) && (n <=? 13)) || ((28 <=? n) && (n <=? 32))
  || (n =? 133) || (n =? 160).

(** A group of the pattern: the number it reads and the rest of the text. *)
Definition group : Type := string -> option (Z * string).

Definition two (p1 p2 : ascii -> bool) : group := fun s =>
  match s with
  | String a (String b r) =>
      if p1 a && p2 b then Some (10 * digit a + digit b, r) else None
  | _ => None
  end.

Definition one (p : ascii -> bool) : group := fun s =>
  match s with
  | String a r => if p a then Some (digit a, r) else None
  | _ => None
  end.

Definition padded (p : ascii -> bool) : group := fun s =>
  match s with
  | String a (String b r) =>
      if Ascii.eqb a " " && p b then Some (digit b, r) else None
  | _ => None
  end.

Definition alt (f g : group) : group := fun s =>
  match f s with
  | Some x => Some x
  | None => g s
  end.

Definition just (c : ascii) : ascii -> bool := Ascii.eqb c.

(** The groups of [_strptime.TimeRE].  A two-character alternative that
    matches is never given up for a shorter one: what follows the group in
    either format (a [-], a [:], white space) is not a digit, so the
    alternatives are tried in order and the first that matches is kept. *)
Definition re_Y : group := fun s =>
  match s with
  | String a (String b (String c (String d r))) =>
      if is_digit a && is_digit b && is_digit c && is_digit d
      then Some (1000 * digit a + 100 * digit b + 10 * digit c + digit d, r)
      else None
  | _ => None
  end.

Definition re_m : group :=
  alt (two (just "1") (between "0" "2"))
 (alt (two (just "0") (between "1" "9"))
      (one (between "1" "9"))).

Definition re_d : group :=
  alt (two (just "3") (between "0" "1"))
 (alt (two (between "1" "2") is_digit)
 (alt (two (just "0") (between "1" "9"))
 (alt (one (between "1" "9"))
      (padded (between "1" "9"))))).

Definition re_H : group :=
  alt (two (just "2") (between "0" "3"))
 (alt (two (between "0" "1") is_digit)
      (one is_digit)).

Definition re_M : group :=
  alt (two (between "0" "5") is_digit) (one is_digit).

Definition re_S : group :=
  alt (two (just "6") (between "0" "1"))
 (alt (two (between "0" "5") is_digit)
      (one is_digit)).

Definition lit (c : ascii) (s : string) : option string :=
  match s with
  | String a r => if Ascii.eqb a c then Some r else None
  | _ => None
  end.

Fixpoint skip_spaces (s : string) : string :=
  match s with
  | String a r => if is_space a then skip_spaces r else s
  | EmptyString => s
  end.

(** [\s+] *)
Definition spaces (s : string) : option string :=
  match s with
  | String a r => if is_space a then Some (skip_spaces r) else None
  | EmptyString => None
  end.

(** [re.match] of the date part: year, month, day and the rest. *)
Definition match_date (s : string) : option (Z * Z * Z * string) :=
  '(y, s) ← re_Y s;
  s ← lit "-" s;
  '(m, s) ← re_m s;
  s ← lit "-" s;
  '(d, s) ← re_d s;
  Some (y, m, d, s).

Definition match_time (s : string) : option (Z * Z * Z * string) :=
  s ← spaces s;
  '(hh, s) ← re_H s;
  s ← lit ":" s;
  '(mm, s) ← re_M s;
  s ← lit ":" s;
  '(ss, s) ← re_S s;
  Some (hh, mm, ss, s).

Definition match_format (f : format) (s : string) : option (datetime * string) :=
  '(y, m, d, s) ← match_date s;
  match f with
  | FmtDate => Some (mk_datetime y m d 0 0 0 0, s)
  | FmtDateTime =>
      '(hh, mm, ss, s) ← match_time s;
      Some (mk_datetime y m d hh mm ss 0, s)
  end.

Definition is_leap (y : Z) : bool :=
  (y mod 4 =? 0) && (negb (y mod 100 =? 0) || (y mod 400 =? 0)).

Definition days_in_month (y m : Z) : Z :=
  if m =? 2 then (if is_leap y then 29 else 28)
  else if (m =? 4) || (m =? 6) || (m =? 9) || (m =? 11) then 30
  else 31.

(** The range checks of the [date] and [datetime] constructors on what the
    pattern lets through: the year 0, a day past the end of the month, a
    second of 60 or 61. *)
Definition check_fields (dt : datetime) : res datetime :=
  if (year dt <? 1) || (9999 <? year dt)
  then Raise (ValueError ("year " +:+ pretty (year dt) +:+ " is out of range"))
  else if (day dt <? 1) || (days_in_month (year dt) (month dt) <? day dt)
  then Raise (ValueError "day is out of range for month")
  else if 59 <? second dt
  then Raise (ValueError "second must be in 0..59")
  else Ok dt.

(** [datetime.strptime(date_string, format)] *)
Definition strptime `{Runtime} (date_string : string) (f : format) : res datetime :=
  match match_format f date_string with
  | None =>
      Raise (ValueError ("time data " +:+ py_repr date_string
                         +:+ " does not match format "
                         +:+ py_repr (format_string f)))
  | Some (dt, EmptyString) => check_fields dt
  | Some (_, rest) => Raise (ValueError ("unconverted data remains: " +:+ rest))
  end.

(** ** Floating point: binary64 *)

Definition float : Type := spec_float.

(** An integer as a float, rounded to nearest even. *)
Definition float_of_int (z : Z) : float := binary_normalize 53 1024 z 0 false.
Definition float_add : float -> float -> float := SFadd 53 1024.
Definition float_mul : float -> float -> float := SFmul 53 1024.
Definition float_div : float -> float -> float := SFdiv 53 1024.

(** [int(x)]: truncation towards zero. *)
Definition int_of_float (x : float) : res Z :=
  match x with
  | S754_zero _ => Ok 0
  | S754_finite s m e =>
      Ok (cond_Zopp s (match e with
                       | Zneg p => Z.pos m / 2 ^ Z.pos p
                       | _ => Z.pos m * 2 ^ e
                       end))
  | S754_infinity _ => Raise (OverflowError "cannot convert float infinity to integer")
  | S754_nan => Raise (ValueError "cannot convert float NaN to integer")
  end.

(** [dt.timestamp()] of a naive datetime: the seconds of the local time,
    plus [microsecond / 1e6]. *)
Definition timestamp `{Runtime} (dt : datetime) : res float :=
  seconds ← local_to_seconds dt;
  Ok (float_add (float_of_int seconds)
        (float_div (float_of_int (microsecond dt)) (float_of_int 1000000))).

(** [dt.replace(hour=h, minute=mi, second=s, microsecond=us)] *)
Definition replace_time (dt : datetime) (h mi s us : Z) : datetime :=
  mk_datetime (year dt) (month dt) (day dt) h mi s us.

(** ** The date normaliser ([utils.py]) *)

Definition invalid_date_format : string :=
  "Invalid date format. Please use YYYY-MM-DD or YYYY-MM-DD HH:MM:SS. Error: ".

Definition convert_date_to_unix `{Runtime} (date_str : string) (end_of_day : bool)
  : res Z :=
  let body : res Z :=
    dt ← match strptime date_str FmtDateTime with
         | Raise (ValueError _) =>
             dt ← strptime date_str FmtDate;
             if end_of_day then Ok (replace_time dt 23 59 59 999000) else Ok dt
         | r => r
         end;
    t ← timestamp dt;
    int_of_float (float_mul t (float_of_int 1000))
  in
  match body with
  | Raise (ValueError msg) => Raise (ValueError (invalid_date_format +:+ msg))
  | r => r
  end.

(** ** The tool handlers ([server.py])

    Each handler is [try: ... except Exception as e: ...]; the [try] block
    of handler [h] is [h_try]. *)

(** The [except] clause: [logger.error("<name> error: %s", e)] and
    [return f"<prefix>{e}"]. *)
Definition report `{Runtime} (name prefix : string) (e : exn) : M string :=
  _ ← log_error (name +:+ " error: " +:+ str_exn e);
  mret (prefix +:+ str_exn e).

Definition get_websites_try `{Runtime, UmamiClient} : M string :=
  sites ← call GetWebsites;
  lift (json_dumps sites).

Definition get_websites `{Runtime, UmamiClient} : M string :=
  try_except get_websites_try
    (report "get_websites" "Error fetching websites: ").

Definition get_session_ids_try `{Runtime, UmamiClient} (fuel : nat)
    (website_id start_at end_at : string) (event_name : option string)
  : M string :=
  start_ts ← lift (convert_date_to_unix start_at false);
  end_ts ← lift (convert_date_to_unix end_at true);
  ids ← _get_session_ids fuel website_id event_name start_ts end_ts;
  lift (json_dumps (VList (map of_hashable ids))).

Definition get_session_ids `{Runtime, UmamiClient} (fuel : nat)
    (website_id start_at end_at : string) (event_name : option string)
  : M string :=
  try_except (get_session_ids_try fuel website_id start_at end_at event_name)
    (report "get_session_ids" "Error fetching session IDs: ").

Definition get_tracking_data_try `{Runtime, UmamiClient}
    (website_id session_id start_at end_at : string) : M string :=
  start_ts ← lift (convert_date_to_unix start_at false);
  end_ts ← lift (convert_date_to_unix end_at true);
  data ← call (GetUserActivity website_id session_id start_ts end_ts);
  lift (json_dumps data).

Definition get_tracking_data `{Runtime, UmamiClient}
    (website_id session_id start_at end_at : string) : M string :=
  try_except (get_tracking_data_try website_id session_id start_at end_at)
    (report "get_tracking_data" "Error fetching tracking data: ").

Definition get_website_stats_try `{Runtime, UmamiClient}
    (website_id start_at end_at : string) : M string :=
  start_ts ← lift (convert_date_to_unix start_at false);
  end_ts ← lift (convert_date_to_unix end_at true);
  stats ← call (GetWebsiteStats website_id start_ts end_ts);
  lift (json_dumps stats).

Definition get_website_stats `{Runtime, UmamiClient}
    (website_id start_at end_at : string) : M string :=
  try_except (get_website_stats_try website_id start_at end_at)
    (report "get_website_stats" "Error fetching website stats: ").

Definition get_website_metrics_try `{Runtime, UmamiClient}
    (website_id start_at end_at type : string) : M string :=
  start_ts ← lift (convert_date_to_unix start_at false);
  end_ts ← lift (convert_date_to_unix end_at true);
  metrics ← call (GetWebsiteMetrics website_id start_ts end_ts type);
  lift (json_dumps metrics).

Definition get_website_metrics `{Runtime, UmamiClient}
    (website_id start_at end_at type : string) : M string :=
  try_except (get_website_metrics_try website_id start_at end_at type)
    (report "get_website_metrics" "Error fetching website metrics: ").

Definition get_pageview_series_try `{Runtime, UmamiClient}
    (website_id start_at end_at unit timezone : string) : M string :=
  start_ts ← lift (convert_date_to_unix start_at false);
  end_ts ← lift (convert_date_to_unix end_at true);
  series ← call (GetPageviewSeries website_id start_ts end_ts unit timezone);
  lift (json_dumps series).

Definition get_pageview_series `{Runtime, UmamiClient}
    (website_id start_at end_at unit timezone : string) : M string :=
  try_except (get_pageview_series_try website_id start_at end_at unit timezone)
    (report "get_pageview_series" "Error fetching pageview series: ").

Definition get_active_visitors_try `{Runtime, UmamiClient}
    (website_id : string) : M string :=
  data ← call (GetActive website_id);
  lift (json_dumps data).

Definition get_active_visitors `{Runtime, UmamiClient}
    (website_id : string) : M string :=
  try_except (get_active_visitors_try website_id)
    (report "get_active_visitors" "Error fetching active visitors: ").

(** The tools registered with [@mcp.tool()], each with its arguments. *)
Inductive tool : Type :=
| ToolGetWebsites
| ToolGetSessionIds (website_id start_at end_at : string)
    (event_name : option string)
| ToolGetTrackingData (website_id session_id start_at end_at : string)
| ToolGetWebsiteStats (website_id start_at end_at : string)
| ToolGetWebsiteMetrics (website_id start_at end_at type : string)
| ToolGetPageviewSeries (website_id start_at end_at unit timezone : string)
| ToolGetActiveVisitors (website_id : string).

Definition run_tool `{Runtime, UmamiClient} (fuel : nat) (t : tool) : M string :=
  match t with
  | ToolGetWebsites => get_websites
  | ToolGetSessionIds w s e ev => get_session_ids fuel w s e ev
  | ToolGetTrackingData w sid s e => get_tracking_data w sid s e
  | ToolGetWebsiteStats w s e => get_website_stats w s e
  | ToolGetWebsiteMetrics w s e ty => get_website_metrics w s e ty
  | ToolGetPageviewSeries w s e u tz => get_pageview_series w s e u tz
  | ToolGetActiveVisitors w => get_active_visitors w
  end.

Definition tool_try `{Runtime, UmamiClient} (fuel : nat) (t : tool) : M string :=
  match t with
  | ToolGetWebsites => get_websites_try
  | ToolGetSessionIds w s e ev => get_session_ids_try fuel w s e ev
  | ToolGetTrackingData w sid s e => get_tracking_data_try w sid s e
  | ToolGetWebsiteStats w s e => get_website_stats_try w s e
  | ToolGetWebsiteMetrics w s e ty => get_website_metrics_try w s e ty
  | ToolGetPageviewSeries w s e u tz => get_pageview_series_try w s e u tz
  | ToolGetActiveVisitors w => get_active_visitors_try w
  end.

Definition tool_name (t : tool) : string :=
  match t with
  | ToolGetWebsites => "get_websites"
  | ToolGetSessionIds _ _ _ _ => "get_session_ids"
  | ToolGetTrackingData _ _ _ _ => "get_tracking_data"
  | ToolGetWebsiteStats _ _ _ => "get_website_stats"
  | ToolGetWebsiteMetrics _ _ _ _ => "get_website_metrics"
  | ToolGetPageviewSeries _ _ _ _ _ => "get_pageview_series"
  | ToolGetActiveVisitors _ => "get_active_visitors"
  end.

Definition error_prefix (t : tool) : string :=
  match t with
  | ToolGetWebsites => "Error fetching websites: "
  | ToolGetSessionIds _ _ _ _ => "Error fetching session IDs: "
  | ToolGetTrackingData _ _ _ _ => "Error fetching tracking data: "
  | ToolGetWebsiteStats _ _ _ => "Error fetching website stats: "
  | ToolGetWebsiteMetrics _ _ _ _ => "Error fetching website metrics: "
  | ToolGetPageviewSeries _ _ _ _ _ => "Error fetching pageview series: "
  | ToolGetActiveVisitors _ => "Error fetching active visitors: "
  end.

(** The date boundaries a tool takes: its [start_at] and [end_at]. *)
Definition date_boundaries (t : tool) : option (string * string) :=
  match t with
  | ToolGetWebsites | ToolGetActiveVisitors _ => None
  | ToolGetSessionIds _ s e _ => Some (s, e)
  | ToolGetTrackingData _ _ s e => Some (s, e)
  | ToolGetWebsiteStats _ s e => Some (s, e)
  | ToolGetWebsiteMetrics _ s e _ => Some (s, e)
  | ToolGetPageviewSeries _ s e _ _ => Some (s, e)
  end.

(** The time range a request carries. *)
Definition call_range (c : api_call) : option (Z * Z) :=
  match c with
  | GetWebsites | GetActive _ => None
  | GetEventsWhere _ s e _ _ _ _ _ => Some (s, e)
  | GetUserActivity _ _ s e => Some (s, e)
  | GetWebsiteStats _ s e => Some (s, e)
  | GetWebsiteMetrics _ s e _ => Some (s, e)
  | GetPageviewSeries _ s e _ _ => Some (s, e)
  end.

(** ** A runtime and remote ends to run the code on

    The process runs in UTC, as [local_to_seconds] of CPython computes it
    there; [repr] and [json.dumps] are those of text without quotes,
    backslashes or control characters. *)

Definition days_before_year (y : Z) : Z :=
  let y := y - 1 in y * 365 + y / 4 - y / 100 + y / 400.

Definition days_before_month (y m : Z) : Z :=
  nth (Z.to_nat m) [0; 0; 31; 59; 90; 120; 151; 181; 212; 243; 273; 304; 334] 0
  + (if (2 <? m) && is_leap y then 1 else 0).

Definition ymd_to_ord (y m d : Z) : Z :=
  days_before_year y + days_before_month y m + d.

Definition utc_to_seconds (dt : datetime) : Z :=
  ((ymd_to_ord (year dt) (month dt) (day dt) * 24 + hour dt) * 60
   + minute dt) * 60 + second dt.

Definition epoch : Z := 719163 * 24 * 60 * 60.

Definition new_line (indent : nat) : string :=
  String "010" (str_repeat indent " ").

Fixpoint join (sep : string) (l : list string) : string :=
  match l with
  | [] => EmptyString
  | [x] => x
  | x :: l' => x +:+ sep +:+ join sep l'
  end.

Definition quoted (s : string) : string :=
  String "034" s +:+ String "034" EmptyString.

Fixpoint dumps (indent : nat) (v : value) {struct v} : string :=
  match v with
  | VNone => "null"
  | VInt z => pretty z
  | VStr s => quoted s
  | VList [] => "[]"
  | VList l =>
      "[" +:+ new_line (indent + 2)
      +:+ join ("," +:+ new_line (indent + 2))
            ((fix items (l : list value) : list string :=
                match l with
                | [] => []
                | x :: l' => dumps (indent + 2) x :: items l'
                end) l)
      +:+ new_line indent +:+ "]"
  | VDict [] => "{}"
  | VDict d =>
      "{" +:+ new_line (indent + 2)
      +:+ join ("," +:+ new_line (indent + 2))
            ((fix items (d : list (string * value)) : list string :=
                match d with
                | [] => []
                | (k, x) :: d' =>
                    (quoted k +:+ ": " +:+ dumps (indent + 2) x) :: items d'
                end) d)
      +:+ new_line indent +:+ "}"
  end.

Definition utc_runtime : Runtime := {|
  local_to_seconds dt := Ok (utc_to_seconds dt - epoch);
  py_repr s := "'" +:+ s +:+ "'";
  json_dumps v := Ok (dumps 0 v)
|}.

(** Remote ends.  A page of events as the events endpoint returns it. *)
Definition event (session_id : string) : value :=
  VDict [("sessionId"%string, VStr session_id)].

Definition events_page (session_ids : list string) (page count : Z) : value :=
  VDict [("data"%string, VList (map event session_ids));
         ("count"%string, VInt count);
         ("page"%string, VInt page);
         ("pageSize"%string, VInt 200)].

(** A remote end that holds the given pages of session ids, reports [count]
    matches in all, and answers None past its last page. *)
Definition paged_client (pages : list (list string)) (count : Z) : UmamiClient := {|
  respond c :=
    match c with
    | GetEventsWhere _ _ _ _ _ _ page _ =>
        match pages !! Z.to_nat (page - 1) with
        | Some session_ids => Ok (events_page session_ids page count)
        | None => Ok VNone
        end
    | _ => Ok (VList [])
    end
|}.

(** A remote end out of reach: every request raises [e]. *)
Definition failing_client (e : exn) : UmamiClient := {|
  respond _ := Raise e
|}.

(** A remote end whose answer on the first page is an object without
    [data]. *)
Definition no_data_client : UmamiClient := {|
  respond _ := Ok (VDict [("count"%string, VInt 0); ("page"%string, VInt 1)])
|}.


(** A remote end that answers page [p] as page [p + 1] of [200 * p + 1]
    matches. *)
Definition drifting_client : UmamiClient := {|
  respond c :=
    match c with
    | GetEventsWhere _ _ _ _ _ _ page _ =>
        Ok (events_page [] (page + 1) (200 * page + 1))
    | _ => Ok (VList [])
    end
|}.

(** A remote end that never runs out: page [p] holds one session and
    reports [200 * p + 1] matches. *)
Definition endless_client : UmamiClient := {|
  respond c :=
    match c with
    | GetEventsWhere _ _ _ _ _ _ page _ =>
        Ok (events_page ["s"%string] page (200 * page + 1))
    | _ => Ok (VList [])
    end
|}.

Definition empty_world : world := mk_world [] [].

(** ** Vocabulary of the statements *)

(** The request of the collector for page [page]. *)
Definition page_request (website_id : string) (event_name : option string)
    (start_at end_at : Z) (page : Z) : api_call :=
  GetEventsWhere website_id start_at end_at "day" "UTC" event_name page 200.

(** The page numbers [page], [page + 1], ... of [n] requests in a row. *)
Definition page_numbers (page : Z) (n : nat) : list Z :=
  map (fun i => page + Z.of_nat i) (seq 0 n).

(** The session identifier of each record of a data list, in the order of
    the list, duplicates included. *)
Fixpoint record_ids (events : list value) : res (list hashable) :=
  match events with
  | [] => Ok []
  | event :: rest =>
      v ← getitem event "sessionId";
      h ← to_hashable v;
      hs ← record_ids rest;
      Ok (h :: hs)
  end.

Definition page_records (events_where : value) : res (list hashable) :=
  data ← getitem events_where "data";
  events ← py_iter data;
  record_ids events.

(** What the collector makes of an answer: it goes on to the next page with
    the ids [db], ends on this page with [db], ends on an empty answer, or
    fails. *)
Inductive verdict : Type :=
| Continue (db : list hashable)
| Last (db : list hashable)
| NoData
| Failed (e : exn).

Definition verdict_of (answer : res value) : verdict :=
  match answer with
  | Raise e => Failed e
  | Ok events_where =>
      if truthy events_where then
        match page_session_ids events_where with
        | Raise e => Failed e
        | Ok db =>
            match page_is_last events_where with
            | Raise e => Failed e
            | Ok true => Last db
            | Ok false => Continue db
            end
        end
      else NoData
  end.

Definition is_session_tool (t : tool) : bool :=
  match t with
  | ToolGetSessionIds _ _ _ _ => true
  | _ => false
  end.

(** The world after the requests [cs]. *)
Definition asked (w : world) (cs : list api_call) : world :=
  mk_world (calls w ++ cs) (logged w).

(** The answer to [c] is a page the collector can read: it is not empty, the
    session ids of its records are [db], and [last] is the outcome of the
    test [200 * page >= count] on it. *)
Definition answers_page `{UmamiClient} (c : api_call) (db : list hashable)
    (last : bool) : Prop :=
  exists events_where,
    respond c = Ok events_where /\ truthy events_where = true
    /\ page_session_ids events_where = Ok db
    /\ page_is_last events_where = Ok last.

(** The answer to [c] ends the paging: the request raises, the answer is
    empty, it cannot be read, or it passes the test [200 * page >= count]. *)
Definition ends_paging `{UmamiClient} (c : api_call) : Prop :=
  (exists e, respond c = Raise e)
  \/ exists events_where, respond c = Ok events_where
     /\ (truthy events_where = false
         \/ (exists e, page_session_ids events_where = Raise e)
         \/ (exists e, page_is_last events_where = Raise e)
         \/ page_is_last events_where = Ok true).

(** A run of the collector that ends without an error, from the page counter
    [page] on: the records of each page it reads, and the number of requests
    it makes. *)
Inductive paging `{UmamiClient} (website_id : string)
    (event_name : option string) (start_at end_at : Z)
  : Z -> list (list hashable) -> nat -> Prop :=
| paging_empty (page : Z) (events_where : value) :
    respond (page_request website_id event_name start_at end_at page)
      = Ok events_where ->
    truthy events_where = false ->
    paging website_id event_name start_at end_at page [] 1
| paging_last (page : Z) (events_where : value) (records : list hashable) :
    respond (page_request website_id event_name start_at end_at page)
      = Ok events_where ->
    truthy events_where = true ->
    page_records events_where = Ok records ->
    page_is_last events_where = Ok true ->
    paging website_id event_name start_at end_at page [records] 1
| paging_more (page : Z) (events_where : value) (records : list hashable)
    (rest : list (list hashable)) (n : nat) :
    respond (page_request website_id event_name start_at end_at page)
      = Ok events_where ->
    truthy events_where = true ->
    page_records events_where = Ok records ->
    page_is_last events_where = Ok false ->
    paging website_id event_name start_at end_at (page + 1) rest n ->
    paging website_id event_name start_at end_at page (records :: rest) (S n).

(** The 53-bit mantissa of the float of a positive integer below 2^53. *)
Definition norm (a : positive) : positive :=
  Pos.shiftl_nat a (Z.to_nat (53 - Z.pos (Pos.size a))).

(** The texts of the two formats, written from their fields. *)
Definition digit_char (n : Z) : ascii := ascii_of_N (Z.to_N (48 + n)).

Definition two_digits (n : Z) (rest : string) : string :=
  String (digit_char (n / 10)) (String (digit_char (n mod 10)) rest).

Definition four_digits (n : Z) (rest : string) : string :=
  two_digits (n / 100) (two_digits (n mod 100) rest).

(** The text [YYYY-MM-DD], followed by [rest]. *)
Definition date_text (y m d : Z) (rest : string) : string :=
  four_digits y (String "-" (two_digits m (String "-" (two_digits d rest)))).

(** The text [HH:MM:SS] after one space. *)
Definition time_text (hh mm ss : Z) : string :=
  String " " (two_digits hh (String ":" (two_digits mm
    (String ":" (two_digits ss EmptyString))))).

(** The fields of a date and time of the calendar, to the second. *)
Definition valid_datetime (dt : datetime) : Prop :=
  1 <= year dt <= 9999 /\ 1 <= month dt <= 12
  /\ 1 <= day dt <= days_in_month (year dt) (month dt)
  /\ 0 <= hour dt <= 23 /\ 0 <= minute dt <= 59 /\ 0 <= second dt <= 59
  /\ microsecond dt = 0.

(** The run of a handler comes to an end: always for a tool that makes one
    request; for the session tool, when a date does not convert, or when the
    answer to some page request of its collector ends the paging. *)
Definition tool_returns `{Runtime, UmamiClient} (t : tool) : Prop :=
  match t with
  | ToolGetSessionIds website_id start_at end_at event_name =>
      match convert_date_to_unix start_at false,
            convert_date_to_unix end_at true with
      | Ok start_ts, Ok end_ts =>
          exists k, 1 <= k
            /\ ends_paging
                 (page_request website_id event_name start_ts end_ts k)
      | _, _ => True
      end
  | _ => True
  end.

(** * Properties *)

(** ** Binary64 arithmetic on whole numbers

    [convert_date_to_unix] goes through floats even when the time has no
    fraction; these lemmas show that nothing is lost then. *)

Lemma digits2_pos_size (p : positive) : digits2_pos p = Pos.size p.
Proof. induction p as [p IH|p IH|]; simpl; congruence. Qed.

Lemma size_bounds (p : positive) :
  2 ^ (Z.pos (Pos.size p) - 1) <= Z.pos p < 2 ^ Z.pos (Pos.size p).
Proof.
  split.
  - pose proof (Pos.size_le p) as H.
    apply Pos2Z.pos_le_pos in H. rewrite Pos2Z.inj_pow in H.
    replace (Z.pos (Pos.size p)) with (Z.succ (Z.pos (Pos.size p) - 1)) in H by lia.
    rewrite Z.pow_succ_r in H by lia. lia.
  - pose proof (Pos.size_gt p) as H.
    apply Pos2Z.pos_lt_pos in H. now rewrite Pos2Z.inj_pow in H.
Qed.

Lemma size_unique (p : positive) (d : Z) :
  2 ^ (d - 1) <= Z.pos p < 2 ^ d -> Z.pos (Pos.size p) = d.
Proof.
  intros [Hlo Hhi]. pose proof (size_bounds p) as [Hlo' Hhi'].
  assert (0 <= d) as Hd.
  { destruct (Z.le_gt_cases 0 d) as [|Hneg]; [done|].
    rewrite Z.pow_neg_r in Hhi by lia. lia. }
  assert (d - 1 < Z.pos (Pos.size p)) as H1.
  { apply (Z.pow_lt_mono_r_iff 2); lia. }
  assert (Z.pos (Pos.size p) - 1 < d) as H2.
  { apply (Z.pow_lt_mono_r_iff 2); lia. }
  lia.
Qed.

Lemma shiftl_nat_Z (m : positive) (k : nat) :
  Z.pos (Pos.shiftl_nat m k) = Z.pos m * 2 ^ Z.of_nat k.
Proof.
  induction k as [|k IH].
  - simpl. lia.
  - rewrite Nat2Z.inj_succ, Z.pow_succ_r by lia.
    change (Pos.shiftl_nat m (S k)) with (xO (Pos.shiftl_nat m k)).
    rewrite Pos2Z.inj_xO, IH. lia.
Qed.

Lemma size_shiftl_nat (m : positive) (k : nat) :
  Z.pos (Pos.size (Pos.shiftl_nat m k)) = Z.pos (Pos.size m) + Z.of_nat k.
Proof.
  induction k as [|k IH].
  - simpl. lia.
  - change (Pos.shiftl_nat m (S k)) with (xO (Pos.shiftl_nat m k)).
    simpl Pos.size. rewrite Pos2Z.inj_succ, IH. lia.
Qed.

Lemma iter_pos_nat {A : Type} (f : A -> A) (p : positive) (x : A) :
  SpecFloat.iter_pos f p x = Nat.iter (Pos.to_nat p) f x.
Proof.
  revert x. induction p as [p IH|p IH|]; intros x; simpl SpecFloat.iter_pos.
  - rewrite !IH, Pos2Nat.inj_xI.
    replace (S (2 * Pos.to_nat p))%nat with (Pos.to_nat p + (Pos.to_nat p + 1))%nat by lia.
    rewrite !Nat.iter_add. reflexivity.
  - rewrite !IH, Pos2Nat.inj_xO.
    replace (2 * Pos.to_nat p)%nat with (Pos.to_nat p + Pos.to_nat p)%nat by lia.
    rewrite Nat.iter_add. reflexivity.
  - reflexivity.
Qed.

Lemma shr_shiftl_nat (m : positive) (k : nat) :
  Nat.iter k shr_1 (Build_shr_record (Z.pos (Pos.shiftl_nat m k)) false false)
  = Build_shr_record (Z.pos m) false false.
Proof.
  induction k as [|k IH]; [reflexivity|].
  rewrite Nat.iter_succ_r.
  change (Pos.shiftl_nat m (S k)) with (xO (Pos.shiftl_nat m k)).
  exact IH.
Qed.

(** Rounding a mantissa whose bits below the 53 leading ones are zero. *)
Lemma round_exact (sx : bool) (m : positive) (k : nat) (e : Z) :
  Z.pos (Pos.size m) = 53 ->
  -1074 <= e + Z.of_nat k <= 971 ->
  binary_round_aux 53 1024 sx (Z.pos (Pos.shiftl_nat m k)) e loc_Exact
  = S754_finite sx m (e + Z.of_nat k).
Proof.
  intros Hm He.
  unfold binary_round_aux.
  assert (shr_fexp 53 1024 (Z.pos (Pos.shiftl_nat m k)) e loc_Exact
          = (Build_shr_record (Z.pos m) false false, e + Z.of_nat k)) as ->.
  { unfold shr_fexp, fexp, emin. cbn [Zdigits2 shr_record_of_loc].
    rewrite digits2_pos_size, size_shiftl_nat, Hm.
    replace (Z.max (53 + Z.of_nat k + e - 53) (3 - 1024 - 53) - e)
      with (Z.of_nat k) by lia.
    destruct k as [|k].
    - simpl. f_equal. lia.
    - unfold shr. change (Z.of_nat (S k)) with (Z.pos (Pos.of_succ_nat k)). cbv iota.
      rewrite iter_pos_nat, SuccNat2Pos.id_succ, shr_shiftl_nat. reflexivity. }
  cbn [shr_m loc_of_shr_record round_nearest_even].
  assert (shr_fexp 53 1024 (Z.pos m) (e + Z.of_nat k) loc_Exact
          = (Build_shr_record (Z.pos m) false false, e + Z.of_nat k)) as ->.
  { unfold shr_fexp, fexp, emin. cbn [Zdigits2 shr_record_of_loc].
    rewrite digits2_pos_size, Hm.
    replace (Z.max (53 + (e + Z.of_nat k) - 53) (3 - 1024 - 53) - (e + Z.of_nat k))
      with 0 by lia.
    reflexivity. }
  cbn [shr_m].
  replace (e + Z.of_nat k <=? 1024 - 53) with true by (symmetry; apply Z.leb_le; lia).
  reflexivity.
Qed.

Lemma size_norm (a : positive) :
  Z.pos a < 2 ^ 53 -> Z.pos (Pos.size (norm a)) = 53.
Proof.
  intros Ha. unfold norm. rewrite size_shiftl_nat.
  pose proof (size_bounds a) as [Hlo _].
  assert (Z.pos (Pos.size a) - 1 < 53) by (apply (Z.pow_lt_mono_r_iff 2); lia).
  lia.
Qed.

Lemma size_le_53 (a : positive) : Z.pos a < 2 ^ 53 -> Z.pos (Pos.size a) <= 53.
Proof.
  intros Ha. pose proof (size_bounds a) as [Hlo _].
  assert (Z.pos (Pos.size a) - 1 < 53) by (apply (Z.pow_lt_mono_r_iff 2); lia).
  lia.
Qed.

Lemma binary_round_int (sx : bool) (a : positive) :
  Z.pos a < 2 ^ 53 ->
  binary_round 53 1024 sx a 0
  = S754_finite sx (norm a) (Z.pos (Pos.size a) - 53).
Proof.
  intros Ha. pose proof (size_le_53 a Ha) as Hsz.
  unfold binary_round, shl_align, fexp, emin.
  rewrite digits2_pos_size.
  replace (Z.max (Z.pos (Pos.size a) + 0 - 53) (3 - 1024 - 53) - 0)
    with (Z.pos (Pos.size a) - 53) by lia.
  replace (Z.max (Z.pos (Pos.size a) + 0 - 53) (3 - 1024 - 53))
    with (Z.pos (Pos.size a) - 53) by lia.
  destruct (Z.pos (Pos.size a) - 53) as [|d|d] eqn:Hd; try lia.
  - assert (norm a = a) as Hn.
    { unfold norm. replace (53 - Z.pos (Pos.size a)) with 0 by lia. reflexivity. }
    pose proof (round_exact sx a 0 0) as H. simpl in H.
    rewrite H, Hn by lia. reflexivity.
  - assert (Pos.iter xO a d = norm a) as ->.
    { unfold norm. rewrite Pos2Nat.inj_iter.
      replace (Z.to_nat (53 - Z.pos (Pos.size a))) with (Pos.to_nat d) by lia.
      reflexivity. }
    pose proof (round_exact sx (norm a) 0 (Z.neg d) (size_norm a Ha)) as H.
    simpl Pos.shiftl_nat in H. rewrite H by lia. f_equal; lia.
Qed.


Lemma float_of_int_pos (a : positive) :
  Z.pos a < 2 ^ 53 ->
  float_of_int (Z.pos a) = S754_finite false (norm a) (Z.pos (Pos.size a) - 53).
Proof. apply binary_round_int. Qed.

Lemma float_of_int_neg (a : positive) :
  Z.pos a < 2 ^ 53 ->
  float_of_int (Z.neg a) = S754_finite true (norm a) (Z.pos (Pos.size a) - 53).
Proof. apply binary_round_int. Qed.

Lemma norm_Z (a : positive) :
  Z.pos a < 2 ^ 53 ->
  Z.pos (norm a) = Z.pos a * 2 ^ (53 - Z.pos (Pos.size a)).
Proof.
  intros Ha. pose proof (size_le_53 a Ha). unfold norm.
  rewrite shiftl_nat_Z, Z2Nat.id by lia. reflexivity.
Qed.

Lemma size_mul (a b : positive) :
  Z.pos (Pos.size a) + Z.pos (Pos.size b) - 1 <= Z.pos (Pos.size (a * b)).
Proof.
  pose proof (size_bounds a) as [Ha _].
  pose proof (size_bounds b) as [Hb _].
  pose proof (size_bounds (a * b)) as [_ Hab].
  assert (Z.pos (Pos.size a) - 1 + (Z.pos (Pos.size b) - 1) < Z.pos (Pos.size (a * b))).
  { apply (Z.pow_lt_mono_r_iff 2); [lia | lia |].
    rewrite Z.pow_add_r by lia. rewrite Pos2Z.inj_mul in Hab.
    assert (0 < 2 ^ (Z.pos (Pos.size a) - 1)) by (apply Z.pow_pos_nonneg; lia).
    assert (0 < 2 ^ (Z.pos (Pos.size b) - 1)) by (apply Z.pow_pos_nonneg; lia).
    nia. }
  lia.
Qed.

(** The product of two integers is exact as long as it stays below 2^53. *)
Lemma float_mul_int (sa sb : bool) (a b : positive) :
  Z.pos (a * b) < 2 ^ 53 ->
  float_mul (S754_finite sa (norm a) (Z.pos (Pos.size a) - 53))
            (S754_finite sb (norm b) (Z.pos (Pos.size b) - 53))
  = S754_finite (xorb sa sb) (norm (a * b)) (Z.pos (Pos.size (a * b)) - 53).
Proof.
  intros Hab.
  assert (Z.pos a < 2 ^ 53) as Ha by (rewrite Pos2Z.inj_mul in Hab; nia).
  assert (Z.pos b < 2 ^ 53) as Hb by (rewrite Pos2Z.inj_mul in Hab; nia).
  pose proof (size_le_53 _ Ha) as Hsa.
  pose proof (size_le_53 _ Hb) as Hsb.
  pose proof (size_le_53 _ Hab) as Hsab.
  pose proof (size_mul a b) as Hsm.
  unfold float_mul, SFmul.
  set (k := Z.to_nat (53 + Z.pos (Pos.size (a * b))
                      - Z.pos (Pos.size a) - Z.pos (Pos.size b))).
  assert ((norm a * norm b)%positive = Pos.shiftl_nat (norm (a * b)) k) as ->.
  { apply Pos2Z.inj_pos. rewrite Pos2Z.inj_mul, shiftl_nat_Z, !norm_Z by done.
    unfold k. rewrite Z2Nat.id by lia.
    rewrite Pos2Z.inj_mul.
    rewrite <- !Z.mul_assoc. f_equal.
    rewrite (Z.mul_comm (2 ^ _) (Z.pos b * _)), <- !Z.mul_assoc. f_equal.
    rewrite <- !Z.pow_add_r by lia. f_equal. lia. }
  rewrite round_exact.
  - f_equal. unfold k. lia.
  - apply size_norm, Hab.
  - unfold k. lia.
Qed.

Lemma int_of_float_int (s : bool) (a : positive) :
  Z.pos a < 2 ^ 53 ->
  int_of_float (S754_finite s (norm a) (Z.pos (Pos.size a) - 53))
  = Ok (cond_Zopp s (Z.pos a)).
Proof.
  intros Ha. pose proof (size_le_53 _ Ha) as Hs.
  unfold int_of_float. do 2 f_equal.
  rewrite norm_Z by done.
  destruct (Z.pos (Pos.size a) - 53) as [|d|d] eqn:Hd; try lia.
  - replace (53 - Z.pos (Pos.size a)) with 0 by lia. lia.
  - replace (53 - Z.pos (Pos.size a)) with (Z.pos d) by lia.
    apply Z.div_mul. apply Z.pow_nonzero; lia.
Qed.

(** The pipeline of [convert_date_to_unix] on a whole number of seconds:
    [int((s + 0 / 1e6) * 1000)] is [1000 * s]. *)
Lemma whole_seconds_to_ms (s : Z) :
  Z.abs s < 2 ^ 43 ->
  int_of_float
    (float_mul
       (float_add (float_of_int s)
          (float_div (float_of_int 0) (float_of_int 1000000)))
       (float_of_int 1000))
  = Ok (1000 * s).
Proof.
  intros Hs.
  assert (float_div (float_of_int 0) (float_of_int 1000000) = S754_zero false)
    as -> by (vm_compute; reflexivity).
  assert (float_of_int 1000
          = S754_finite false (norm 1000) (Z.pos (Pos.size 1000) - 53))
    as -> by (vm_compute; reflexivity).
  destruct s as [|a|a].
  - vm_compute. reflexivity.
  - assert (Z.pos (a * 1000) < 2 ^ 53) as Hm by lia.
    rewrite float_of_int_pos by lia.
    unfold float_add, SFadd.
    rewrite float_mul_int, int_of_float_int by done.
    simpl cond_Zopp. f_equal. lia.
  - assert (Z.pos (a * 1000) < 2 ^ 53) as Hm by lia.
    rewrite float_of_int_neg by lia.
    unfold float_add, SFadd.
    rewrite float_mul_int, int_of_float_int by done.
    simpl cond_Zopp. f_equal. lia.
Qed.

(** ** The texts the formats accept *)

Ltac enumerate n lo len :=
  let H := fresh "Hin" in
  let l := eval vm_compute in (seqZ lo len) in
  assert (n ∈ l) as H
    by (change l with (seqZ lo len); apply elem_of_seqZ; lia);
  repeat (apply elem_of_cons in H as [->|H]);
  [.. | by apply elem_of_nil in H].

Lemma two_digits_digits (n : Z) (rest : string) :
  0 <= n <= 99 ->
  exists a b,
    two_digits n rest = String a (String b rest)
    /\ is_digit a = true /\ is_digit b = true
    /\ 10 * digit a + digit b = n.
Proof.
  intros Hn. enumerate n 0 100; eexists _, _; repeat split.
Qed.

Lemma re_Y_four_digits (y : Z) (rest : string) :
  0 <= y <= 9999 -> re_Y (four_digits y rest) = Some (y, rest).
Proof.
  intros Hy.
  pose proof (Z.div_mod y 100) as Hsplit.
  pose proof (Z.mod_pos_bound y 100) as Hlo.
  assert (0 <= y / 100 <= 99) as Hhi by lia.
  unfold four_digits.
  destruct (two_digits_digits (y / 100) (two_digits (y mod 100) rest) Hhi)
    as (a & b & -> & Ha & Hb & Hab).
  destruct (two_digits_digits (y mod 100) rest) as (c & d & -> & Hc & Hd & Hcd);
    [lia|].
  unfold re_Y. rewrite Ha, Hb, Hc, Hd. cbn [andb]. do 2 f_equal. lia.
Qed.

Lemma re_m_two_digits (m : Z) (rest : string) :
  1 <= m <= 12 -> re_m (two_digits m rest) = Some (m, rest).
Proof. intros Hm. enumerate m 1 12; reflexivity. Qed.

Lemma re_d_two_digits (d : Z) (rest : string) :
  1 <= d <= 31 -> re_d (two_digits d rest) = Some (d, rest).
Proof. intros Hd. enumerate d 1 31; reflexivity. Qed.

Lemma re_H_two_digits (hh : Z) (rest : string) :
  0 <= hh <= 23 -> re_H (two_digits hh rest) = Some (hh, rest).
Proof. intros Hh. enumerate hh 0 24; reflexivity. Qed.

Lemma re_M_two_digits (mm : Z) (rest : string) :
  0 <= mm <= 59 -> re_M (two_digits mm rest) = Some (mm, rest).
Proof. intros Hm. enumerate mm 0 60; reflexivity. Qed.

Lemma re_S_two_digits (ss : Z) (rest : string) :
  0 <= ss <= 59 -> re_S (two_digits ss rest) = Some (ss, rest).
Proof. intros Hs. enumerate ss 0 60; reflexivity. Qed.

Lemma spaces_before_hour (hh : Z) (rest : string) :
  0 <= hh <= 23 ->
  spaces (String " " (two_digits hh rest)) = Some (two_digits hh rest).
Proof. intros Hh. enumerate hh 0 24; reflexivity. Qed.

Lemma days_in_month_le_31 (y m : Z) : days_in_month y m <= 31.
Proof. unfold days_in_month. repeat case_match; lia. Qed.

Lemma match_date_text (y m d : Z) (rest : string) :
  0 <= y <= 9999 -> 1 <= m <= 12 -> 1 <= d <= 31 ->
  match_date (date_text y m d rest) = Some (y, m, d, rest).
Proof.
  intros Hy Hm Hd. unfold match_date, date_text.
  rewrite re_Y_four_digits by done. cbn.
  rewrite re_m_two_digits by done. cbn.
  rewrite re_d_two_digits by done. reflexivity.
Qed.

Lemma match_time_text (hh mm ss : Z) :
  0 <= hh <= 23 -> 0 <= mm <= 59 -> 0 <= ss <= 59 ->
  match_time (time_text hh mm ss) = Some (hh, mm, ss, EmptyString).
Proof.
  intros Hh Hm Hs. unfold match_time, time_text.
  rewrite spaces_before_hour by done. cbn.
  rewrite re_H_two_digits by done. cbn.
  rewrite re_M_two_digits by done. cbn.
  rewrite re_S_two_digits by done. reflexivity.
Qed.

Lemma check_fields_valid (dt : datetime) :
  valid_datetime dt -> check_fields dt = Ok dt.
Proof.
  intros (Hy & Hm & Hd & Hh & Hmi & Hs & Hus). unfold check_fields.
  assert ((year dt <? 1) || (9999 <? year dt) = false) as ->
    by (apply orb_false_intro; [apply Z.ltb_ge | apply Z.ltb_ge]; lia).
  assert ((day dt <? 1) || (days_in_month (year dt) (month dt) <? day dt) = false)
    as -> by (apply orb_false_intro; [apply Z.ltb_ge | apply Z.ltb_ge]; lia).
  assert ((59 <? second dt) = false) as -> by (apply Z.ltb_ge; lia).
  reflexivity.
Qed.

Section CanonicalText.
Context `{Runtime}.

(** The text [YYYY-MM-DD HH:MM:SS] of a date and time of the calendar is
    accepted by the first format, with these fields. *)
Lemma datetime_text_is_parsed (dt : datetime) :
  valid_datetime dt ->
  strptime (date_text (year dt) (month dt) (day dt)
              (time_text (hour dt) (minute dt) (second dt))) FmtDateTime
  = Ok dt.
Proof.
  intros Hv. pose proof Hv as (Hy & Hm & Hd & Hh & Hmi & Hs & Hus).
  pose proof (days_in_month_le_31 (year dt) (month dt)).
  unfold strptime, match_format.
  rewrite match_date_text by lia. cbn -[match_time time_text].
  rewrite match_time_text by done. cbn.
  destruct dt as [y m d hh mm ss us]. cbn in *. subst us.
  by apply check_fields_valid.
Qed.

(** The text [YYYY-MM-DD] of a date of the calendar is refused by the first
    format and accepted by the second, as midnight of that date. *)
Lemma date_text_is_parsed (y m d : Z) :
  valid_datetime (mk_datetime y m d 0 0 0 0) ->
  (exists msg,
     strptime (date_text y m d EmptyString) FmtDateTime = Raise (ValueError msg))
  /\ strptime (date_text y m d EmptyString) FmtDate
     = Ok (mk_datetime y m d 0 0 0 0).
Proof.
  intros Hv. pose proof Hv as (Hy & Hm & Hd & _). cbn in Hy, Hm, Hd.
  pose proof (days_in_month_le_31 y m).
  unfold strptime, match_format.
  rewrite match_date_text by lia. cbn. split; [eauto|].
  by apply check_fields_valid.
Qed.

End CanonicalText.

(** ** The date normaliser *)

Ltac res_simpl := cbn [mbind res_bind mret res_ret].

Section Normaliser.
Context `{Runtime}.

Lemma check_fields_inv (dt dt' : datetime) :
  check_fields dt = Ok dt' -> dt' = dt.
Proof.
  unfold check_fields. repeat case_match; congruence.
Qed.

Lemma check_fields_raises (dt : datetime) (e : exn) :
  check_fields dt = Raise e -> exists msg, e = ValueError msg.
Proof.
  unfold check_fields. repeat case_match; intros [= <-]; eauto.
Qed.

(** A parsed date carries no fraction of a second. *)
Lemma strptime_microsecond (date_str : string) (f : format) (dt : datetime) :
  strptime date_str f = Ok dt -> microsecond dt = 0.
Proof.
  unfold strptime, match_format.
  destruct (match_date date_str) as [[[[y m] d] s]|]; cbn; [|discriminate].
  destruct f; cbn.
  - destruct (match_time s) as [[[[hh mm] ss] s']|]; cbn; [|discriminate].
    destruct s'; [|discriminate].
    intros Hc. apply check_fields_inv in Hc. subst dt. reflexivity.
  - destruct s; [|discriminate].
    intros Hc. apply check_fields_inv in Hc. subst dt. reflexivity.
Qed.

(** Whatever [strptime] raises is a [ValueError]. *)
Lemma strptime_raises (date_str : string) (f : format) (e : exn) :
  strptime date_str f = Raise e -> exists msg, e = ValueError msg.
Proof.
  unfold strptime.
  destruct (match_format f date_str) as [[dt rest]|].
  - destruct rest.
    + apply check_fields_raises.
    + intros [= <-]. eauto.
  - intros [= <-]. eauto.
Qed.

Lemma timestamp_whole (dt : datetime) (seconds : Z) :
  microsecond dt = 0 ->
  local_to_seconds dt = Ok seconds ->
  Z.abs seconds < 2 ^ 43 ->
  (t ← timestamp dt; int_of_float (float_mul t (float_of_int 1000)))
  = Ok (1000 * seconds).
Proof.
  intros Hus Hs Hb. unfold timestamp. rewrite Hs, Hus. res_simpl.
  apply whole_seconds_to_ms, Hb.
Qed.

(** A date without a time and without [end_of_day] is the millisecond of
    midnight. *)
Lemma date_only_start_of_day (date_str : string) (dt : datetime) (e : exn)
    (seconds : Z) :
  strptime date_str FmtDateTime = Raise e ->
  strptime date_str FmtDate = Ok dt ->
  local_to_seconds dt = Ok seconds ->
  Z.abs seconds < 2 ^ 43 ->
  convert_date_to_unix date_str false = Ok (1000 * seconds).
Proof.
  intros H1 H2 Hs Hb.
  destruct (strptime_raises _ _ _ H1) as [msg ->].
  unfold convert_date_to_unix. rewrite H1, H2. res_simpl.
  rewrite (timestamp_whole dt seconds (strptime_microsecond _ _ _ H2) Hs Hb).
  reflexivity.
Qed.


(** C6.  A string that neither format accepts is never turned into a
    timestamp: [convert_date_to_unix] raises a [ValueError] whose message is
    the fixed invalid-format text followed by the detail of the parse failure
    (the message of the second, date-only, attempt). *)
Theorem unparsable_date_is_rejected (date_str : string) (end_of_day : bool)
    (e1 e2 : exn) :
  strptime date_str FmtDateTime = Raise e1 ->
  strptime date_str FmtDate = Raise e2 ->
  convert_date_to_unix date_str end_of_day
  = Raise (ValueError (invalid_date_format +:+ str_exn e2)).
Proof.
  intros H1 H2.
  destruct (strptime_raises _ _ _ H1) as [m1 ->].
  destruct (strptime_raises _ _ _ H2) as [m2 ->].
  unfold convert_date_to_unix. rewrite H1, H2. reflexivity.
Qed.

End Normaliser.

(** The text [YYYY-MM-DD] of a date of the calendar, without [end_of_day],
    is converted to the millisecond of its midnight. *)
Corollary date_text_start_of_day `{Runtime} (y m d seconds : Z) :
  valid_datetime (mk_datetime y m d 0 0 0 0) ->
  local_to_seconds (mk_datetime y m d 0 0 0 0) = Ok seconds ->
  Z.abs seconds < 2 ^ 43 ->
  convert_date_to_unix (date_text y m d EmptyString) false = Ok (1000 * seconds).
Proof.
  intros Hv Hs Hb. destruct (date_text_is_parsed y m d Hv) as [[msg H1] H2].
  exact (date_only_start_of_day _ _ _ _ H1 H2 Hs Hb).
Qed.


Lemma unparsable_date_is_rejected_witness :
  @strptime utc_runtime "not-a-date" FmtDateTime
    = Raise (ValueError "time data 'not-a-date' does not match format '%Y-%m-%d %H:%M:%S'")
  /\ @strptime utc_runtime "not-a-date" FmtDate
    = Raise (ValueError "time data 'not-a-date' does not match format '%Y-%m-%d'")
  /\ @convert_date_to_unix utc_runtime "not-a-date" false
     = Raise (ValueError "Invalid date format. Please use YYYY-MM-DD or YYYY-MM-DD HH:MM:SS. Error: time data 'not-a-date' does not match format '%Y-%m-%d'").
Proof.
  assert (@strptime utc_runtime "not-a-date" FmtDateTime
    = Raise (ValueError "time data 'not-a-date' does not match format '%Y-%m-%d %H:%M:%S'")) as H1 by reflexivity.
  assert (@strptime utc_runtime "not-a-date" FmtDate
    = Raise (ValueError "time data 'not-a-date' does not match format '%Y-%m-%d'")) as H2 by reflexivity.
  split; [exact H1 | split; [exact H2 |]].
  exact (@unparsable_date_is_rejected utc_runtime _ false _ _ H1 H2).
Defined.

(** C4, at a date of 1987 in a process that runs in UTC.  The last
    millisecond of 1 March 1987 is 541641599999; the conversion goes through
    [float] and [int] and comes out one millisecond short. *)
Theorem end_of_day_1987_is_one_ms_short :
  @strptime utc_runtime "1987-03-01" FmtDate = Ok (mk_datetime 1987 3 1 0 0 0 0)
  /\ @local_to_seconds utc_runtime (mk_datetime 1987 3 1 23 59 59 999000)
     = Ok 541641599
  /\ @convert_date_to_unix utc_runtime "1987-03-01" true = Ok 541641599998
  /\ 541641599998 <> 1000 * 541641599 + 999.
Proof. repeat split; try (vm_compute; reflexivity). discriminate. Qed.

(** ** The session collector *)

Lemma elem_of_unique (ids : list hashable) (h : hashable) :
  h ∈ unique ids <-> h ∈ ids.
Proof. unfold unique. rewrite elem_of_elements, elem_of_list_to_set. reflexivity. Qed.

Lemma NoDup_unique (ids : list hashable) : NoDup (unique ids).
Proof. unfold unique. apply NoDup_elements. Qed.

Lemma unique_nil : unique [] = [].
Proof. reflexivity. Qed.

(** The set built from a data list holds the ids of its records. *)
Lemma session_id_set_records (events : list value) (acc : gset hashable) :
  session_id_set events acc
  = (hs ← record_ids events; Ok (acc ∪ list_to_set hs)).
Proof.
  revert acc. induction events as [|event rest IH]; intros acc.
  - cbn. f_equal. set_solver.
  - cbn [session_id_set record_ids].
    destruct (getitem event "sessionId") as [v|e]; [|reflexivity].
    cbn [mbind res_bind].
    destruct (to_hashable v) as [h|e]; [|reflexivity].
    cbn [mbind res_bind]. rewrite IH.
    destruct (record_ids rest) as [hs|e]; [|reflexivity].
    cbn. f_equal. set_solver.
Qed.

(** [db] is the list of records of the page without its duplicates. *)
Lemma page_session_ids_records (events_where : value) :
  page_session_ids events_where
  = (records ← page_records events_where; Ok (unique records)).
Proof.
  unfold page_session_ids, page_records.
  destruct (getitem events_where "data") as [data|e]; [|reflexivity].
  cbn [mbind res_bind].
  destruct (py_iter data) as [events|e]; [|reflexivity].
  cbn [mbind res_bind]. rewrite session_id_set_records.
  destruct (record_ids events) as [hs|e]; [|reflexivity].
  cbn. unfold unique. do 2 f_equal. set_solver.
Qed.

(** On integers the test of the last page is [200 * page >= count]. *)
Lemma page_is_last_int (events_where : value) (p c : Z) :
  getitem events_where "page" = Ok (VInt p) ->
  getitem events_where "count" = Ok (VInt c) ->
  page_is_last events_where = Ok (c <=? 200 * p).
Proof. intros Hp Hc. unfold page_is_last. rewrite Hp. cbn. rewrite Hc. reflexivity. Qed.

Lemma page_numbers_S (page : Z) (n : nat) :
  page_numbers page (S n) = page :: page_numbers (page + 1) n.
Proof.
  unfold page_numbers. cbn [seq map]. f_equal; [lia|].
  rewrite <- seq_shift, map_map. apply map_ext. intros i. lia.
Qed.

Lemma page_numbers_1 (page : Z) : page_numbers page 1 = [page].
Proof. unfold page_numbers. cbn. f_equal. lia. Qed.

Lemma asked_asked (w : world) (cs cs' : list api_call) :
  asked (asked w cs) cs' = asked w (cs ++ cs').
Proof. unfold asked. cbn. by rewrite app_assoc. Qed.

Lemma asked_nil (w : world) : asked w [] = w.
Proof. destruct w. unfold asked. cbn. by rewrite app_nil_r. Qed.

Section Collector.
Context `{UmamiClient}.
Variables (website_id : string) (event_name : option string) (start_at end_at : Z).

#[local] Abbreviation request :=
  (page_request website_id event_name start_at end_at).
#[local] Abbreviation loop :=
  (fun fuel => _get_session_ids_loop fuel website_id event_name start_at end_at).
#[local] Abbreviation collect :=
  (fun fuel => _get_session_ids fuel website_id event_name start_at end_at).

(** One turn of the loop, by the verdict on the answer. *)
Lemma loop_turn (fuel : nat) (page : Z) (ids : list hashable) (w : world) :
  loop (S fuel) page ids w =
  match verdict_of (respond (request page)) with
  | Continue db => loop fuel (page + 1) (ids ++ db) (asked w [request page])
  | Last db => (Some (Ok (unique (ids ++ db))), asked w [request page])
  | NoData => (Some (Ok (unique ids)), asked w [request page])
  | Failed e => (Some (Raise e), asked w [request page])
  end.
Proof.
  cbn [_get_session_ids_loop]. unfold mbind at 1, M_bind, call, verdict_of.
  fold (request page).
  destruct (respond (request page)) as [ev|e]; [|reflexivity].
  destruct (truthy ev); cbn [negb]; [|reflexivity].
  unfold mbind at 1, M_bind, lift.
  destruct (page_session_ids ev) as [db|e]; [|reflexivity].
  unfold mbind at 1, M_bind.
  destruct (page_is_last ev) as [[|]|e]; reflexivity.
Qed.

Lemma verdict_answers_page (c : api_call) (db : list hashable) (last : bool) :
  answers_page c db last ->
  verdict_of (respond c) = if last then Last db else Continue db.
Proof.
  intros (ev & -> & Ht & Hdb & Hl). unfold verdict_of.
  rewrite Ht, Hdb, Hl. by destruct last.
Qed.

Lemma verdict_continue (c : api_call) (db : list hashable) :
  verdict_of (respond c) = Continue db -> answers_page c db false.
Proof.
  unfold verdict_of, answers_page.
  destruct (respond c) as [ev|e]; [|discriminate].
  destruct (truthy ev) eqn:Ht; [|discriminate].
  destruct (page_session_ids ev) as [db'|e] eqn:Hdb; [|discriminate].
  destruct (page_is_last ev) as [[|]|e] eqn:Hl; try discriminate.
  intros [= <-]. exists ev. done.
Qed.

Lemma verdict_ends_paging (c : api_call) :
  ends_paging c <-> forall db, verdict_of (respond c) <> Continue db.
Proof.
  unfold ends_paging, verdict_of. split.
  - intros [[e He]|(ev & He & Hev)] db; rewrite He; [discriminate|].
    destruct Hev as [Ht|[[e Hs]|[[e Hl]|Hl]]].
    + by rewrite Ht.
    + destruct (truthy ev); [|done]. by rewrite Hs.
    + destruct (truthy ev); [|done].
      destruct (page_session_ids ev); [|done]. by rewrite Hl.
    + destruct (truthy ev); [|done].
      destruct (page_session_ids ev); [|done]. by rewrite Hl.
  - intros Hv. destruct (respond c) as [ev|e]; [right|left; eauto].
    exists ev. split; [done|].
    destruct (truthy ev); [|by left].
    destruct (page_session_ids ev) as [db|e]; [|right; left; eauto].
    destruct (page_is_last ev) as [[|]|e].
    + right; right; right; done.
    + by destruct (Hv db).
    + right; right; left; eauto.
Qed.

(** The requests of the loop are those of consecutive pages, each of 200
    records, and nothing else changes in the world. *)
Lemma loop_requests (fuel : nat) (page : Z) (ids : list hashable) (w : world) :
  exists n, (n <= fuel)%nat
    /\ snd (loop fuel page ids w) = asked w (map request (page_numbers page n))
    /\ (fst (loop fuel page ids w) = None -> n = fuel)
    /\ (fuel <> 0%nat -> n <> 0%nat).
Proof.
  revert page ids w. induction fuel as [|fuel IH]; intros page ids w.
  - exists 0%nat. cbn. rewrite asked_nil. done.
  - rewrite loop_turn.
    destruct (verdict_of (respond (request page))) as [db|db| |e].
    + destruct (IH (page + 1) (ids ++ db) (asked w [request page]))
        as (n & Hn & Hw & Hf & _).
      exists (S n). split; [lia|]. split; [|split; [|done]].
      * rewrite Hw, asked_asked, page_numbers_S. reflexivity.
      * intros Hnone. f_equal. auto.
    + exists 1%nat. split; [lia|]. split; [|done].
      by rewrite page_numbers_1.
    + exists 1%nat. split; [lia|]. split; [|done].
      by rewrite page_numbers_1.
    + exists 1%nat. split; [lia|]. split; [|done].
      by rewrite page_numbers_1.
Qed.

(** A run that ends without an error gives back, without duplicates, the
    ids it held and those of the records of the pages it read. *)
Lemma loop_paging (page : Z) (records : list (list hashable)) (n : nat) :
  paging website_id event_name start_at end_at page records n ->
  forall (fuel : nat) (ids : list hashable) (w : world),
    (n <= fuel)%nat ->
    exists ids',
      loop fuel page ids w
      = (Some (Ok (unique ids')),
         asked w (map request (page_numbers page n)))
      /\ forall h, h ∈ ids' <-> h ∈ ids \/ h ∈ concat records.
Proof.
  induction 1 as [page ev Hr Ht|page ev recs Hr Ht Hrec Hl
                 |page ev recs rest n Hr Ht Hrec Hl Hp IH];
    intros fuel ids w Hfuel.
  - destruct fuel as [|fuel]; [lia|]. rewrite loop_turn.
    unfold verdict_of. rewrite Hr, Ht.
    exists ids. split.
    + by rewrite page_numbers_1.
    + cbn. set_solver.
  - destruct fuel as [|fuel]; [lia|]. rewrite loop_turn.
    unfold verdict_of. rewrite Hr, Ht, page_session_ids_records, Hrec.
    cbn [mbind res_bind]. rewrite Hl.
    exists (ids ++ unique recs). split.
    + by rewrite page_numbers_1.
    + intros h. cbn. rewrite app_nil_r, elem_of_app, elem_of_unique. done.
  - destruct fuel as [|fuel]; [lia|]. rewrite loop_turn.
    unfold verdict_of. rewrite Hr, Ht, page_session_ids_records, Hrec.
    cbn [mbind res_bind]. rewrite Hl.
    destruct (IH fuel (ids ++ unique recs) (asked w [request page]))
      as (ids' & Hrun & Hin); [lia|].
    exists ids'. split.
    + rewrite Hrun, asked_asked, page_numbers_S. reflexivity.
    + intros h. rewrite Hin, elem_of_app, elem_of_unique. cbn.
      rewrite elem_of_app. tauto.
Qed.


(** C1 (amended).  When the answer to a page request is falsy (None, or an
    object with no key at all) the collector ends its loop at once and
    returns what it has, without raising; on the first page that is the
    empty list. *)
Theorem empty_answer_ends_normally (fuel : nat) (page : Z)
    (ids : list hashable) (w : world) (events_where : value) :
  respond (request page) = Ok events_where ->
  truthy events_where = false ->
  loop (S fuel) page ids w
  = (Some (Ok (unique ids)), asked w [request page])
  /\ (page = 1 ->
      collect (S fuel) w = (Some (Ok []), asked w [request 1])).
Proof.
  intros Hr Ht.
  assert (forall ids', loop (S fuel) page ids' w
          = (Some (Ok (unique ids')), asked w [request page])) as Hloop.
  { intros ids'. rewrite loop_turn. unfold verdict_of. by rewrite Hr, Ht. }
  split; [apply Hloop|].
  intros ->. unfold _get_session_ids. rewrite Hloop. reflexivity.
Qed.


(** C3.  A run that ends without an error returns each session id found in
    the records of the pages it fetched exactly once, and it fetches the
    pages up to the one that ends the paging and no page after it, however
    much further it could go. *)
Theorem collect_sessions_deduplicates (records : list (list hashable))
    (n fuel : nat) (w : world) :
  paging website_id event_name start_at end_at 1 records n ->
  (n <= fuel)%nat ->
  exists result,
    collect fuel w
    = (Some (Ok result), asked w (map request (page_numbers 1 n)))
    /\ NoDup result
    /\ forall h, h ∈ result <-> h ∈ concat records.
Proof.
  intros Hp Hn.
  destruct (loop_paging 1 records n Hp fuel [] w Hn) as (ids' & Hrun & Hin).
  exists (unique ids'). split; [exact Hrun|]. split; [apply NoDup_unique|].
  intros h. rewrite elem_of_unique, Hin. set_solver.
Qed.

Lemma loop_goes_on (page : Z) :
  (forall k, page <= k -> exists db, answers_page (request k) db false) ->
  forall (fuel : nat) (ids : list hashable) (w : world),
    loop fuel page ids w
    = (None, asked w (map request (page_numbers page fuel))).
Proof.
  intros Hall fuel. revert page Hall.
  induction fuel as [|fuel IH]; intros page Hall ids w.
  - cbn. by rewrite asked_nil.
  - rewrite loop_turn. destruct (Hall page) as [db Hdb]; [lia|].
    rewrite (verdict_answers_page _ _ _ Hdb), IH.
    + by rewrite asked_asked, page_numbers_S.
    + intros k Hk. apply Hall. lia.
Qed.

Lemma loop_ended (fuel : nat) (page : Z) (ids : list hashable) (w : world) :
  fst (loop fuel page ids w) <> None ->
  exists k, page <= k /\ ends_paging (request k).
Proof.
  revert page ids w. induction fuel as [|fuel IH]; intros page ids w.
  - cbn. done.
  - rewrite loop_turn.
    destruct (verdict_of (respond (request page))) as [db|db| |e] eqn:Hv.
    + intros Hn. destruct (IH _ _ _ Hn) as (k & Hk & He).
      exists k. split; [lia|done].
    + intros _. exists page. split; [lia|].
      apply verdict_ends_paging. intros db'. by rewrite Hv.
    + intros _. exists page. split; [lia|].
      apply verdict_ends_paging. intros db'. by rewrite Hv.
    + intros _. exists page. split; [lia|].
      apply verdict_ends_paging. intros db'. by rewrite Hv.
Qed.

Lemma loop_ends (j : nat) (page : Z) (ids : list hashable) (w : world) :
  ends_paging (request (page + Z.of_nat j)) ->
  fst (loop (S j) page ids w) <> None.
Proof.
  revert page ids w. induction j as [|j IH]; intros page ids w He;
    rewrite loop_turn;
    destruct (verdict_of (respond (request page))) as [db|db| |e] eqn:Hv;
    try done.
  - replace (page + Z.of_nat 0) with page in He by lia.
    pose proof (proj1 (verdict_ends_paging _) He db) as Hne. by destruct Hne.
  - apply IH.
    replace (page + 1 + Z.of_nat j) with (page + Z.of_nat (S j)) by lia.
    exact He.
Qed.

(** C9 (amended).  The collector sets no bound of its own on the number of
    pages.  When every answer is a page it can read, with integers for the
    page number and the count it reports and the count above 200 times that
    reported page number, the loop is still running after any number of
    requests.  It ends exactly when the answer to some request ends the
    paging: the request raises, the answer is empty, it cannot be read, or
    200 times the page number it reports reaches the count it reports. *)
Theorem no_local_bound_on_pages :
  ((forall k, 1 <= k ->
      exists events_where db p c,
        respond (request k) = Ok events_where
        /\ truthy events_where = true
        /\ page_session_ids events_where = Ok db
        /\ getitem events_where "page" = Ok (VInt p)
        /\ getitem events_where "count" = Ok (VInt c)
        /\ 200 * p < c) ->
   forall (fuel : nat) (w : world),
     collect fuel w = (None, asked w (map request (page_numbers 1 fuel))))
  /\ (forall w : world,
        (exists fuel, fst (collect fuel w) <> None)
        <-> exists k, 1 <= k /\ ends_paging (request k)).
Proof.
  split.
  - intros Hall fuel w. apply loop_goes_on. intros k Hk.
    destruct (Hall k Hk) as (ev & db & p & c & Hr & Ht & Hdb & Hp & Hc & Hlt).
    exists db, ev. repeat split; try done.
    rewrite (page_is_last_int _ _ _ Hp Hc). f_equal. apply Z.leb_gt. lia.
  - intros w. split.
    + intros [fuel Hf]. by apply loop_ended in Hf.
    + intros (k & Hk & He). exists (S (Z.to_nat (k - 1))).
      apply loop_ends.
      replace (1 + Z.of_nat (Z.to_nat (k - 1))) with k by lia. exact He.
Qed.

(** More fuel does not change a run that has ended. *)
Lemma loop_stable (fuel : nat) (page : Z) (ids : list hashable) (w : world) :
  fst (loop fuel page ids w) <> None ->
  forall fuel', (fuel <= fuel')%nat ->
    loop fuel' page ids w = loop fuel page ids w.
Proof.
  revert page ids w.
  induction fuel as [|fuel IH]; intros page ids w Hend fuel' Hle.
  - by destruct Hend.
  - destruct fuel' as [|fuel']; [lia|].
    rewrite !loop_turn in *.
    destruct (verdict_of (respond (request page))); try reflexivity.
    apply IH; [done|lia].
Qed.

(** The collector ends, and then gives the same outcome with any more fuel,
    once the answer to some page request ends the paging. *)
Lemma collect_ends (w : world) :
  (exists k, 1 <= k /\ ends_paging (request k)) ->
  exists fuel0,
    fst (collect fuel0 w) <> None
    /\ forall fuel, (fuel0 <= fuel)%nat -> collect fuel w = collect fuel0 w.
Proof.
  intros (k & Hk & He).
  assert (fst (collect (S (Z.to_nat (k - 1))) w) <> None) as Hend.
  { apply loop_ends.
    replace (1 + Z.of_nat (Z.to_nat (k - 1))) with k by lia. exact He. }
  exists (S (Z.to_nat (k - 1))). split; [exact Hend|].
  intros fuel Hle. by apply loop_stable.
Qed.

(** The collector is still paging, whatever the fuel, when no answer ends
    the paging. *)
Lemma collect_goes_on (w : world) :
  ~ (exists k, 1 <= k /\ ends_paging (request k)) ->
  forall fuel, fst (collect fuel w) = None.
Proof.
  intros Hno fuel.
  destruct (fst (collect fuel w)) as [r|] eqn:Hr; [|reflexivity].
  destruct Hno. apply (loop_ended fuel 1 [] w).
  unfold _get_session_ids in Hr. by rewrite Hr.
Qed.

End Collector.

(** *** The collector on concrete remote ends *)

Lemma empty_answer_ends_normally_witness :
  @respond (paged_client [] 0) (page_request "site" None 0 1 1) = Ok VNone
  /\ truthy VNone = false
  /\ @_get_session_ids (paged_client [] 0) 1 "site" None 0 1 empty_world
     = (Some (Ok []), asked empty_world [page_request "site" None 0 1 1]).
Proof.
  assert (@respond (paged_client [] 0) (page_request "site" None 0 1 1)
          = Ok VNone) as H1 by reflexivity.
  assert (truthy VNone = false) as H2 by reflexivity.
  split; [exact H1 | split; [exact H2 |]].
  exact (proj2 (@empty_answer_ends_normally (paged_client [] 0)
                  "site" None 0 1 0 1 [] empty_world VNone H1 H2) eq_refl).
Defined.

(** C1 as stated fails on an answer that has no [data] key and is not
    empty: the collector does not stop normally, the lookup of [data]
    raises. *)
Lemma answer_without_data_raises :
  @respond no_data_client (page_request "site" None 0 1 1)
    = Ok (VDict [("count"%string, VInt 0); ("page"%string, VInt 1)])
  /\ dict_get [("count"%string, VInt 0); ("page"%string, VInt 1)] "data" = None
  /\ @_get_session_ids no_data_client 1 "site" None 0 1 empty_world
     = (Some (Raise (KeyError "data")),
        asked empty_world [page_request "site" None 0 1 1]).
Proof. repeat split. Qed.


(** With 450 matches the collector asks for three pages. *)
Example three_pages_for_450 :
  calls (snd (@_get_session_ids
                (paged_client [["a"]; ["b"]; ["c"]]%string 450)
                10 "site" None 0 1 empty_world))
  = map (page_request "site" None 0 1) [1; 2; 3].
Proof. vm_compute. reflexivity. Qed.


Lemma collect_sessions_deduplicates_witness :
  paging (H := paged_client [["A"; "A"; "B"]; ["B"; "C"]]%string 5)
    "site" None 0 1 1 [[HStr "A"; HStr "A"; HStr "B"]] 1
  /\ (1 <= 2)%nat
  /\ exists result,
       @_get_session_ids (paged_client [["A"; "A"; "B"]; ["B"; "C"]]%string 5)
         2 "site" None 0 1 empty_world
       = (Some (Ok result),
          asked empty_world (map (page_request "site" None 0 1) (page_numbers 1 1)))
       /\ NoDup result
       /\ forall h, h ∈ result <-> h ∈ concat [[HStr "A"; HStr "A"; HStr "B"]].
Proof.
  assert (paging (H := paged_client [["A"; "A"; "B"]; ["B"; "C"]]%string 5)
            "site" None 0 1 1 [[HStr "A"; HStr "A"; HStr "B"]] 1) as H1.
  { eapply paging_last; reflexivity. }
  assert (1 <= 2)%nat as H2 by (apply le_S, le_n).
  split; [exact H1 | split; [exact H2 |]].
  exact (@collect_sessions_deduplicates
           (paged_client [["A"; "A"; "B"]; ["B"; "C"]]%string 5)
           "site" None 0 1 _ 1%nat 2%nat empty_world H1 H2).
Defined.

(** Page 1 holds A, A, B and the remote end reports 5 matches: the result
    is A and B, and page 2 is not asked for. *)
Example first_page_of_five :
  @_get_session_ids (paged_client [["A"; "A"; "B"]; ["B"; "C"]]%string 5)
    10 "site" None 0 1 empty_world
  = (Some (Ok [HStr "A"; HStr "B"]),
     asked empty_world [page_request "site" None 0 1 1]).
Proof. vm_compute. reflexivity. Qed.

Lemma endless_client_goes_on (k : Z) :
  1 <= k ->
  exists events_where db p c,
    @respond endless_client (page_request "site" None 0 1 k) = Ok events_where
    /\ truthy events_where = true
    /\ page_session_ids events_where = Ok db
    /\ getitem events_where "page" = Ok (VInt p)
    /\ getitem events_where "count" = Ok (VInt c)
    /\ 200 * p < c.
Proof.
  intros _. exists (events_page ["s"%string] k (200 * k + 1)), [HStr "s"], k, (200 * k + 1).
  repeat split; try reflexivity. lia.
Defined.

Lemma no_local_bound_on_pages_witness :
  (forall k, 1 <= k ->
     exists events_where db p c,
       @respond endless_client (page_request "site" None 0 1 k) = Ok events_where
       /\ truthy events_where = true
       /\ page_session_ids events_where = Ok db
       /\ getitem events_where "page" = Ok (VInt p)
       /\ getitem events_where "count" = Ok (VInt c)
       /\ 200 * p < c)
  /\ @_get_session_ids endless_client 5 "site" None 0 1 empty_world
     = (None, asked empty_world
                (map (page_request "site" None 0 1) (page_numbers 1 5))).
Proof.
  split; [exact endless_client_goes_on |].
  exact (proj1 (@no_local_bound_on_pages endless_client "site" None 0 1)
           endless_client_goes_on 5%nat empty_world).
Defined.

(** C9 as stated fails when the answers report another page than the one
    asked for: every answer is non-empty and its count is above 200 times
    the page counter, and yet the loop ends on the first page. *)
Lemma drifting_answers_end_paging :
  (forall k, 1 <= k ->
     exists events_where c,
       @respond drifting_client (page_request "site" None 0 1 k) = Ok events_where
       /\ truthy events_where = true
       /\ getitem events_where "count" = Ok (VInt c)
       /\ 200 * k < c)
  /\ @_get_session_ids drifting_client 10 "site" None 0 1 empty_world
     = (Some (Ok []), asked empty_world [page_request "site" None 0 1 1]).
Proof.
  split.
  - intros k Hk. exists (events_page [] (k + 1) (200 * k + 1)), (200 * k + 1).
    repeat split; try reflexivity. lia.
  - reflexivity.
Qed.

(** ** The tool handlers *)

Section Handlers.
Context `{Runtime, UmamiClient}.

Lemma run_tool_try (fuel : nat) (t : tool) :
  run_tool fuel t
  = try_except (tool_try fuel t) (report (tool_name t) (error_prefix t)).
Proof. destruct t; reflexivity. Qed.

Lemma try_except_report {A : Type} (body : M A) (handler : exn -> M A) (w : world) :
  try_except body handler w =
  match body w with
  | (Some (Raise e), w') => handler e w'
  | r => r
  end.
Proof. reflexivity. Qed.

Lemma report_run (name prefix : string) (e : exn) (w : world) :
  report name prefix e w
  = (Some (Ok (prefix +:+ str_exn e)),
     mk_world (calls w) (logged w ++ [name +:+ " error: " +:+ str_exn e])).
Proof. reflexivity. Qed.

(** The requests of one run of a handler are those of its [try] block. *)
Lemma run_tool_calls (fuel : nat) (t : tool) (w : world) :
  calls (snd (run_tool fuel t w)) = calls (snd (tool_try fuel t w)).
Proof.
  rewrite run_tool_try, try_except_report.
  destruct (tool_try fuel t w) as [[[s|e]|] w']; reflexivity.
Qed.

Ltac run_monad :=
  unfold tool_try, get_websites_try, get_session_ids_try, get_tracking_data_try,
    get_website_stats_try, get_website_metrics_try, get_pageview_series_try,
    get_active_visitors_try, mbind, M_bind, lift, call, mret, M_ret.

(** Only the session tool can still be running when the fuel is out. *)
Lemma tool_try_returns (fuel : nat) (t : tool) (w : world) :
  is_session_tool t = false -> fst (tool_try fuel t w) <> None.
Proof.
  destruct t; try discriminate; intros _; run_monad;
    repeat match goal with
           | |- context [match ?x with _ => _ end] => destruct x
           end; cbn; discriminate.
Qed.

(** A date that does not convert ends the [try] block before any request. *)
Lemma tool_try_bad_start (fuel : nat) (t : tool) (w : world)
    (start_at end_at : string) (e : exn) :
  date_boundaries t = Some (start_at, end_at) ->
  convert_date_to_unix start_at false = Raise e ->
  tool_try fuel t w = (Some (Raise e), w).
Proof.
  destruct t; try discriminate; intros [= <- <-] He; run_monad;
    rewrite He; reflexivity.
Qed.

Lemma tool_try_bad_end (fuel : nat) (t : tool) (w : world)
    (start_at end_at : string) (start_ts : Z) (e : exn) :
  date_boundaries t = Some (start_at, end_at) ->
  convert_date_to_unix start_at false = Ok start_ts ->
  convert_date_to_unix end_at true = Raise e ->
  tool_try fuel t w = (Some (Raise e), w).
Proof.
  destruct t; try discriminate; intros [= <- <-] Hs He; run_monad;
    rewrite Hs, He; reflexivity.
Qed.


Lemma call_range_page_request (website_id : string) (event_name : option string)
    (start_ts end_ts : Z) (c : api_call) (pages : list Z) :
  c ∈ map (page_request website_id event_name start_ts end_ts) pages ->
  call_range c = Some (start_ts, end_ts).
Proof. intros (p & -> & _)%list_elem_of_fmap. reflexivity. Qed.

(** The requests of a tool that takes date boundaries. *)
Lemma tool_try_requests (fuel : nat) (t : tool) (w : world)
    (start_at end_at : string) :
  date_boundaries t = Some (start_at, end_at) ->
  exists new,
    calls (snd (tool_try fuel t w)) = calls w ++ new
    /\ (forall c, c ∈ new ->
          exists start_ts end_ts,
            convert_date_to_unix start_at false = Ok start_ts
            /\ convert_date_to_unix end_at true = Ok end_ts
            /\ call_range c = Some (start_ts, end_ts))
    /\ (forall start_ts end_ts,
          convert_date_to_unix start_at false = Ok start_ts ->
          convert_date_to_unix end_at true = Ok end_ts ->
          fuel <> 0%nat -> new <> []).
Proof.
  intros Hd.
  destruct (convert_date_to_unix start_at false) as [start_ts|e] eqn:Hs.
  2:{ exists []. rewrite (tool_try_bad_start _ _ _ _ _ _ Hd Hs), app_nil_r.
      split; [done|]. split; [|done]. intros c Hc. by apply elem_of_nil in Hc. }
  destruct (convert_date_to_unix end_at true) as [end_ts|e] eqn:He.
  2:{ exists []. rewrite (tool_try_bad_end _ _ _ _ _ _ _ Hd Hs He), app_nil_r.
      split; [done|]. split; [|done]. intros c Hc. by apply elem_of_nil in Hc. }
  destruct t; try discriminate; injection Hd as <- <-; run_monad;
    rewrite Hs, He.
  - (* get_session_ids *)
    destruct (loop_requests website_id event_name start_ts end_ts fuel 1 [] w)
      as (n & Hn & Hw & _ & Hpos).
    fold (_get_session_ids fuel website_id event_name start_ts end_ts w) in Hw.
    exists (map (page_request website_id event_name start_ts end_ts)
              (page_numbers 1 n)).
    split; [|split].
    + destruct (_get_session_ids fuel website_id event_name start_ts end_ts w)
        as [[[ids|e]|] w']; cbn in Hw; subst w'; reflexivity.
    + intros c Hc. exists start_ts, end_ts.
      eauto using call_range_page_request.
    + intros ? ? _ _ Hf. specialize (Hpos Hf).
      destruct n; [done|]. by rewrite page_numbers_S.
  - eexists [_]. split; [|split].
    + destruct (respond _); reflexivity.
    + intros c ->%list_elem_of_singleton. eauto.
    + done.
  - eexists [_]. split; [|split].
    + destruct (respond _); reflexivity.
    + intros c ->%list_elem_of_singleton. eauto.
    + done.
  - eexists [_]. split; [|split].
    + destruct (respond _); reflexivity.
    + intros c ->%list_elem_of_singleton. eauto.
    + done.
  - eexists [_]. split; [|split].
    + destruct (respond _); reflexivity.
    + intros c ->%list_elem_of_singleton. eauto.
    + done.
Qed.

(** What a handler makes of the outcome of its [try] block. *)
Lemma run_tool_outcome (fuel : nat) (t : tool) (w : world) :
  run_tool fuel t w =
  match tool_try fuel t w with
  | (Some (Raise e), w') =>
      (Some (Ok (error_prefix t +:+ str_exn e)),
       mk_world (calls w')
         (logged w' ++ [tool_name t +:+ " error: " +:+ str_exn e]))
  | r => r
  end.
Proof.
  rewrite run_tool_try, try_except_report.
  destruct (tool_try fuel t w) as [[[s|e]|] w']; reflexivity.
Qed.

Lemma tool_try_fuel (fuel : nat) (t : tool) (w : world) :
  is_session_tool t = false -> tool_try fuel t w = tool_try 0 t w.
Proof. by destruct t. Qed.

(** The [try] block of the session tool, once its dates convert. *)
Lemma session_try (fuel : nat) (website_id start_at end_at : string)
    (event_name : option string) (w : world) (start_ts end_ts : Z) :
  convert_date_to_unix start_at false = Ok start_ts ->
  convert_date_to_unix end_at true = Ok end_ts ->
  tool_try fuel (ToolGetSessionIds website_id start_at end_at event_name) w =
  match _get_session_ids fuel website_id event_name start_ts end_ts w with
  | (Some (Ok ids), w') => (Some (json_dumps (VList (map of_hashable ids))), w')
  | (Some (Raise e), w') => (Some (Raise e), w')
  | (None, w') => (None, w')
  end.
Proof.
  intros Hs He. run_monad. rewrite Hs, He.
  by destruct (_get_session_ids fuel website_id event_name start_ts end_ts w)
    as [[[ids|e]|] w'].
Qed.

Lemma run_tool_text (fuel : nat) (t : tool) (w : world) :
  fst (tool_try fuel t w) <> None ->
  exists s, fst (run_tool fuel t w) = Some (Ok s).
Proof.
  rewrite run_tool_outcome.
  destruct (tool_try fuel t w) as [[[s|e]|] w']; cbn; eauto. done.
Qed.

(** C7 (amended).  A handler never raises.  For any exception [e] that its
    [try] block raises (a date that does not convert, a request that fails,
    a page that cannot be read) it returns its fixed prefix followed by
    [str(e)], after logging the error under the handler's name; what the
    block returns it returns.  Every handler but the session one returns
    text whatever happens.  The session handler returns text, the same with
    any more fuel, exactly when a date does not convert or the answer to
    some page request of its collector ends the paging; otherwise it is
    still paging after any number of requests and returns nothing. *)
Theorem handlers_return_text (t : tool) (w : world) :
  (forall fuel e, fst (run_tool fuel t w) <> Some (Raise e))
  /\ (forall fuel e w',
        tool_try fuel t w = (Some (Raise e), w') ->
        run_tool fuel t w
        = (Some (Ok (error_prefix t +:+ str_exn e)),
           mk_world (calls w')
             (logged w' ++ [tool_name t +:+ " error: " +:+ str_exn e])))
  /\ (forall fuel s w',
        tool_try fuel t w = (Some (Ok s), w') ->
        run_tool fuel t w = (Some (Ok s), w'))
  /\ (tool_returns t ->
      exists fuel0 s, forall fuel, (fuel0 <= fuel)%nat ->
        fst (run_tool fuel t w) = Some (Ok s))
  /\ (~ tool_returns t -> forall fuel, fst (run_tool fuel t w) = None)
  /\ (is_session_tool t = false ->
      tool_returns t
      /\ forall fuel, exists s, fst (run_tool fuel t w) = Some (Ok s)).
Proof.
  split; [|split; [|split; [|split; [|split]]]].
  - intros fuel e. rewrite run_tool_outcome.
    by destruct (tool_try fuel t w) as [[[s|e']|] w'].
  - intros fuel e w' Htry. by rewrite run_tool_outcome, Htry.
  - intros fuel s w' Htry. by rewrite run_tool_outcome, Htry.
  - destruct (is_session_tool t) eqn:Hsession.
    + destruct t as [|website_id start_at end_at event_name| | | | |];
        try discriminate.
      unfold tool_returns.
      destruct (convert_date_to_unix start_at false) as [start_ts|e] eqn:Hs;
        [destruct (convert_date_to_unix end_at true) as [end_ts|e] eqn:He|].
      * intros Hends.
        destruct (collect_ends website_id event_name start_ts end_ts w Hends)
          as (fuel0 & Hend & Hstable).
        destruct (run_tool_text fuel0
                    (ToolGetSessionIds website_id start_at end_at event_name) w)
          as [s Htext].
        { rewrite (session_try _ _ _ _ _ _ _ _ Hs He).
          by destruct (_get_session_ids fuel0 website_id event_name
                         start_ts end_ts w) as [[[ids|e]|] w']. }
        exists fuel0, s. intros fuel Hle. rewrite <- Htext.
        rewrite !run_tool_outcome, !(session_try _ _ _ _ _ _ _ _ Hs He).
        by rewrite (Hstable fuel Hle).
      * intros _. exists 0%nat, ("Error fetching session IDs: " +:+ str_exn e).
        intros fuel _.
        by rewrite run_tool_outcome,
             (tool_try_bad_end fuel
                (ToolGetSessionIds website_id start_at end_at event_name)
                w start_at end_at start_ts e eq_refl Hs He).
      * intros _. exists 0%nat, ("Error fetching session IDs: " +:+ str_exn e).
        intros fuel _.
        by rewrite run_tool_outcome,
             (tool_try_bad_start fuel
                (ToolGetSessionIds website_id start_at end_at event_name)
                w start_at end_at e eq_refl Hs).
    + intros _.
      destruct (run_tool_text 0 t w (tool_try_returns 0 t w Hsession))
        as [s Htext].
      exists 0%nat, s. intros fuel _. rewrite <- Htext.
      by rewrite !run_tool_outcome, (tool_try_fuel fuel t w Hsession).
  - intros Hno fuel.
    destruct t as [|website_id start_at end_at event_name| | | | |];
      try (by destruct Hno).
    unfold tool_returns in Hno.
    destruct (convert_date_to_unix start_at false) as [start_ts|e] eqn:Hs;
      [|by destruct Hno].
    destruct (convert_date_to_unix end_at true) as [end_ts|e] eqn:He;
      [|by destruct Hno].
    pose proof (collect_goes_on website_id event_name start_ts end_ts w Hno fuel)
      as Hnone.
    rewrite run_tool_outcome, (session_try _ _ _ _ _ _ _ _ Hs He).
    cbv beta in Hnone. revert Hnone.
    destruct (_get_session_ids fuel website_id event_name start_ts end_ts w)
      as [[[ids|e]|] w']; cbn; by intros.
  - intros Hsession. split; [by destruct t|].
    intros fuel. apply run_tool_text. by apply tool_try_returns.
Qed.

(** A request that fails makes the handler answer with its prefix and the
    detail of the failure. *)
Lemma failed_request_is_reported (fuel : nat) (t : tool) (w : world) (e : exn) :
  (forall c, respond c = Raise e) ->
  (forall start_at end_at,
     date_boundaries t = Some (start_at, end_at) ->
     exists start_ts end_ts,
       convert_date_to_unix start_at false = Ok start_ts
       /\ convert_date_to_unix end_at true = Ok end_ts) ->
  fuel <> 0%nat ->
  fst (run_tool fuel t w) = Some (Ok (error_prefix t +:+ str_exn e)).
Proof.
  intros Hfail Hdates Hfuel.
  assert (exists w', tool_try fuel t w = (Some (Raise e), w')) as [w' Htry].
  { destruct t; cbn in Hdates;
      try (destruct (Hdates _ _ eq_refl) as (start_ts & end_ts & Hs & He));
      run_monad; rewrite ?Hs, ?He, ?Hfail; eauto.
    destruct fuel as [|fuel]; [done|].
    unfold _get_session_ids. rewrite loop_turn. unfold verdict_of.
    rewrite Hfail. eauto. }
  by rewrite run_tool_outcome, Htry.
Qed.

(** C8.  The requests of a handler that takes date boundaries carry the
    start boundary converted with [end_of_day=False] and the end boundary
    converted with [end_of_day=True]; once both convert, the handler does
    make a request. *)
Theorem date_boundaries_are_normalised (fuel : nat) (t : tool) (w : world)
    (start_at end_at : string) :
  date_boundaries t = Some (start_at, end_at) ->
  exists new,
    calls (snd (run_tool fuel t w)) = calls w ++ new
    /\ (forall c, c ∈ new ->
          exists start_ts end_ts,
            convert_date_to_unix start_at false = Ok start_ts
            /\ convert_date_to_unix end_at true = Ok end_ts
            /\ call_range c = Some (start_ts, end_ts))
    /\ (forall start_ts end_ts,
          convert_date_to_unix start_at false = Ok start_ts ->
          convert_date_to_unix end_at true = Ok end_ts ->
          fuel <> 0%nat -> new <> []).
Proof.
  intros Hd. rewrite run_tool_calls. by apply tool_try_requests.
Qed.

(** C10.  When the start or the end date of a handler does not convert, the
    handler makes no request at all, neither a single call nor a page
    request of the collector: it answers with its prefix and the detail of
    the conversion that failed. *)
Theorem bad_date_makes_no_request (fuel : nat) (t : tool) (w : world)
    (start_at end_at : string) (e : exn) :
  date_boundaries t = Some (start_at, end_at) ->
  convert_date_to_unix start_at false = Raise e
  \/ convert_date_to_unix end_at true = Raise e ->
  calls (snd (run_tool fuel t w)) = calls w
  /\ exists e', fst (run_tool fuel t w)
               = Some (Ok (error_prefix t +:+ str_exn e')).
Proof.
  intros Hd Hbad.
  assert (exists e', tool_try fuel t w = (Some (Raise e'), w)) as [e' Htry].
  { destruct (convert_date_to_unix start_at false) as [start_ts|e0] eqn:Hs.
    - destruct Hbad as [|He]; [done|]. exists e.
      by apply (tool_try_bad_end _ _ _ _ _ _ _ Hd Hs He).
    - exists e0. by apply (tool_try_bad_start _ _ _ _ _ _ Hd Hs). }
  rewrite run_tool_calls, run_tool_outcome, Htry. split; [done|]. by exists e'.
Qed.

End Handlers.

(** *** The handlers on concrete remote ends *)

Lemma handlers_return_text_witness :
  (@tool_try utc_runtime (failing_client (OtherError "ConnectError" "no route"))
     0 (ToolGetWebsiteStats "site" "2024-03-01" "2024-03-02") empty_world
   = (Some (Raise (OtherError "ConnectError" "no route")),
      mk_world [GetWebsiteStats "site" 1709251200000 1709423999999] [])
   /\ @run_tool utc_runtime (failing_client (OtherError "ConnectError" "no route"))
        0 (ToolGetWebsiteStats "site" "2024-03-01" "2024-03-02") empty_world
      = (Some (Ok "Error fetching website stats: no route"%string),
         mk_world [GetWebsiteStats "site" 1709251200000 1709423999999]
           ["get_website_stats error: no route"%string]))
  /\ (@tool_returns utc_runtime (paged_client [["A"]; ["B"]]%string 250)
        (ToolGetSessionIds "site" "2024-03-01" "2024-03-02" None)
      /\ exists fuel0 s, forall fuel, (fuel0 <= fuel)%nat ->
           fst (@run_tool utc_runtime (paged_client [["A"]; ["B"]]%string 250)
                  fuel (ToolGetSessionIds "site" "2024-03-01" "2024-03-02" None)
                  empty_world)
           = Some (Ok s)).
Proof.
  assert (@tool_try utc_runtime
            (failing_client (OtherError "ConnectError" "no route"))
            0 (ToolGetWebsiteStats "site" "2024-03-01" "2024-03-02") empty_world
          = (Some (Raise (OtherError "ConnectError" "no route")),
             mk_world [GetWebsiteStats "site" 1709251200000 1709423999999] []))
    as H1 by (vm_compute; reflexivity).
  assert (@tool_returns utc_runtime (paged_client [["A"]; ["B"]]%string 250)
            (ToolGetSessionIds "site" "2024-03-01" "2024-03-02" None)) as H2.
  { unfold tool_returns.
    assert (@convert_date_to_unix utc_runtime "2024-03-01" false
            = Ok 1709251200000) as -> by (vm_compute; reflexivity).
    assert (@convert_date_to_unix utc_runtime "2024-03-02" true
            = Ok 1709423999999) as -> by (vm_compute; reflexivity).
    exists 2. split; [lia|]. right. exists (events_page ["B"%string] 2 250).
    split; [reflexivity|]. right; right; right. reflexivity. }
  split; [split; [exact H1 |] | split; [exact H2 |]].
  - exact (proj1 (proj2 (@handlers_return_text utc_runtime
                           (failing_client (OtherError "ConnectError" "no route"))
                           (ToolGetWebsiteStats "site" "2024-03-01" "2024-03-02")
                           empty_world)) 0%nat _ _ H1).
  - exact (proj1 (proj2 (proj2 (proj2
             (@handlers_return_text utc_runtime
                (paged_client [["A"]; ["B"]]%string 250)
                (ToolGetSessionIds "site" "2024-03-01" "2024-03-02" None)
                empty_world)))) H2).
Defined.

(** C7 as stated fails for the session handler on a remote end that never
    runs out of pages: both dates convert, every answer is a page with more
    to come, and the handler has not returned after any number of
    requests. *)
Lemma session_handler_keeps_paging :
  @convert_date_to_unix utc_runtime "2024-03-01" false = Ok 1709251200000
  /\ @convert_date_to_unix utc_runtime "2024-03-02" true = Ok 1709423999999
  /\ forall fuel,
       fst (@run_tool utc_runtime endless_client fuel
              (ToolGetSessionIds "site" "2024-03-01" "2024-03-02" None)
              empty_world)
       = None.
Proof.
  assert (@convert_date_to_unix utc_runtime "2024-03-01" false
          = Ok 1709251200000) as Hs by (vm_compute; reflexivity).
  assert (@convert_date_to_unix utc_runtime "2024-03-02" true
          = Ok 1709423999999) as He by (vm_compute; reflexivity).
  split; [exact Hs | split; [exact He |]].
  intros fuel.
  rewrite (@run_tool_outcome utc_runtime endless_client),
    (@session_try utc_runtime endless_client _ _ _ _ _ _ _ _ Hs He).
  unfold _get_session_ids.
  rewrite (@loop_goes_on endless_client "site" None 1709251200000 1709423999999 1);
    [reflexivity|].
  intros k _. exists [HStr "s"], (events_page ["s"%string] k (200 * k + 1)).
  repeat split.
  rewrite (page_is_last_int _ k (200 * k + 1)) by reflexivity.
  f_equal. apply Z.leb_gt. lia.
Qed.

Lemma date_boundaries_are_normalised_witness :
  date_boundaries (ToolGetSessionIds "site" "2024-03-01" "2024-03-02" None)
  = Some ("2024-03-01"%string, "2024-03-02"%string)
  /\ exists new,
       calls (snd (@run_tool utc_runtime (paged_client [["A"]; ["B"]]%string 250)
                     5 (ToolGetSessionIds "site" "2024-03-01" "2024-03-02" None)
                     empty_world))
       = calls empty_world ++ new
       /\ (forall c, c ∈ new ->
             exists start_ts end_ts,
               @convert_date_to_unix utc_runtime "2024-03-01" false = Ok start_ts
               /\ @convert_date_to_unix utc_runtime "2024-03-02" true = Ok end_ts
               /\ call_range c = Some (start_ts, end_ts))
       /\ (forall start_ts end_ts,
             @convert_date_to_unix utc_runtime "2024-03-01" false = Ok start_ts ->
             @convert_date_to_unix utc_runtime "2024-03-02" true = Ok end_ts ->
             5%nat <> 0%nat -> new <> []).
Proof.
  assert (date_boundaries (ToolGetSessionIds "site" "2024-03-01" "2024-03-02" None)
          = Some ("2024-03-01"%string, "2024-03-02"%string)) as H1 by reflexivity.
  split; [exact H1 |].
  exact (@date_boundaries_are_normalised utc_runtime
           (paged_client [["A"]; ["B"]]%string 250) 5
           (ToolGetSessionIds "site" "2024-03-01" "2024-03-02" None)
           empty_world _ _ H1).
Defined.

(** The two page requests of that run, with the first millisecond of the
    start date and the last of the end date. *)
Example session_requests_carry_the_range :
  calls (snd (@run_tool utc_runtime (paged_client [["A"]; ["B"]]%string 250)
                5 (ToolGetSessionIds "site" "2024-03-01" "2024-03-02" None)
                empty_world))
  = [page_request "site" None 1709251200000 1709423999999 1;
     page_request "site" None 1709251200000 1709423999999 2].
Proof. vm_compute. reflexivity. Qed.

Lemma bad_date_makes_no_request_witness :
  date_boundaries (ToolGetSessionIds "site" "2024-03-01" "tomorrow" None)
  = Some ("2024-03-01"%string, "tomorrow"%string)
  /\ (@convert_date_to_unix utc_runtime "2024-03-01" false
      = Raise (ValueError (invalid_date_format
          +:+ "time data 'tomorrow' does not match format '%Y-%m-%d'"))
      \/ @convert_date_to_unix utc_runtime "tomorrow" true
         = Raise (ValueError (invalid_date_format
             +:+ "time data 'tomorrow' does not match format '%Y-%m-%d'")))
  /\ calls (snd (@run_tool utc_runtime (paged_client [["A"]; ["B"]]%string 250)
                   5 (ToolGetSessionIds "site" "2024-03-01" "tomorrow" None)
                   empty_world))
     = calls empty_world
  /\ exists e',
       fst (@run_tool utc_runtime (paged_client [["A"]; ["B"]]%string 250)
              5 (ToolGetSessionIds "site" "2024-03-01" "tomorrow" None)
              empty_world)
       = Some (Ok (error_prefix (ToolGetSessionIds "site" "2024-03-01" "tomorrow" None)
                   +:+ @str_exn utc_runtime e')).
Proof.
  assert (date_boundaries (ToolGetSessionIds "site" "2024-03-01" "tomorrow" None)
          = Some ("2024-03-01"%string, "tomorrow"%string)) as H1 by reflexivity.
  assert (@convert_date_to_unix utc_runtime "2024-03-01" false
          = Raise (ValueError (invalid_date_format
              +:+ "time data 'tomorrow' does not match format '%Y-%m-%d'"))
          \/ @convert_date_to_unix utc_runtime "tomorrow" true
             = Raise (ValueError (invalid_date_format
                 +:+ "time data 'tomorrow' does not match format '%Y-%m-%d'")))
    as H2 by (right; vm_compute; reflexivity).
  split; [exact H1 | split; [exact H2 |]].
  exact (@bad_date_makes_no_request utc_runtime
           (paged_client [["A"]; ["B"]]%string 250) 5
           (ToolGetSessionIds "site" "2024-03-01" "tomorrow" None)
           empty_world _ _ _ H1 H2).
Defined.

(** The text the caller gets for that date. *)
Example bad_end_date_text :
  fst (@run_tool utc_runtime (paged_client [["A"]; ["B"]]%string 250)
         5 (ToolGetSessionIds "site" "2024-03-01" "tomorrow" None) empty_world)
  = Some (Ok "Error fetching session IDs: Invalid date format. Please use YYYY-MM-DD or YYYY-MM-DD HH:MM:SS. Error: time data 'tomorrow' does not match format '%Y-%m-%d'"%string).
Proof. vm_compute. reflexivity. Qed.
